(** * hb-ffmpeg-conv: HandBrake preset to ffmpeg command line

    A shallow embedding of [hb-ffmpeg-conv.cpp]: the preset extractor
    ([extract_preset_settings]), the parameter translator
    ([convert_to_ffmpeg_params]), the command builder
    ([build_ffmpeg_command], [build_multipass_commands]) and the per-file
    orchestration ([process_file], the loop of [main]).

    Conventions of the embedding:
    - [std::string] is [string]; [std::vector<std::string>] is [list string],
      with [push_back], [insert_end] and [pop_back] written out;
    - [int] is [Z]; where the source narrows to [int] the wrap-around is
      explicit ([wrap_int]); [double] is the IEEE binary64 subset of
      [spec_float];
    - a [nlohmann::json] value is the inductive [json]; an accessor that can
      throw returns an [outcome];
    - the file system and the external programs are the operations of an
      abstract [World], threaded explicitly together with the trace of what
      was printed and dispatched. *)

From Stdlib Require Import ZArith String Ascii List Lia Bool DecimalString.
From Stdlib Require Import Floats.SpecFloat.
Import ListNotations.

Set Warnings "-register-all".

Local Open Scope string_scope.
Local Open Scope Z_scope.

(** ** [std::string] operations used by the source *)

Module Str.

(** [s.empty()] *)
Definition empty (s : string) : bool :=
  match s with
  | EmptyString => true
  | String _ _ => false
  end.

(** [s.find(pat)]: the lowest position at which [pat] occurs, [None] for
    [std::string::npos]. *)
Definition find (s pat : string) : option nat := String.index 0 pat s.

(** [s.find(c)] for a character. *)
Definition find_char (s : string) (c : ascii) : option nat :=
  find s (String c EmptyString).

(** [s.find(pat) != std::string::npos] *)
Definition contains (s pat : string) : bool :=
  match find s pat with
  | Some _ => true
  | None => false
  end.

(** [s.rfind(pat, 0) == 0]: the only position [rfind] may report with
    [pos = 0] is 0, so the test says that [s] starts with [pat]. *)
Definition rfind0_is_0 (s pat : string) : bool := String.prefix pat s.

(** [s.substr(pos)] for [pos <= s.size()]. *)
Definition substr_from (s : string) (pos : nat) : string :=
  String.substring pos (String.length s - pos) s.

(** [s.replace(pos, len, r)] for [pos <= s.size()]. *)
Definition replace (s : string) (pos len : nat) (r : string) : string :=
  String.substring 0 pos s ++ r ++ substr_from s (pos + len).

(** [std::replace(s.begin(), s.end(), a, b)] *)
Fixpoint replace_char (a b : ascii) (s : string) : string :=
  match s with
  | EmptyString => EmptyString
  | String c s' =>
      String (if Ascii.eqb c a then b else c) (replace_char a b s')
  end.

(** [std::to_string(int)]: decimal digits, a leading minus sign for
    negative values. *)
Definition to_string_int (z : Z) : string :=
  NilZero.string_of_int (Z.to_int z).

(** The character of one decimal digit. *)
Definition digit (d : Z) : ascii :=
  ascii_of_nat (48 + Z.to_nat d).

(** [n] right-aligned in [width] digits, padded with zeros. *)
Fixpoint zero_padded (width : nat) (n : Z) : string :=
  match width with
  | O => EmptyString
  | S w => zero_padded w (n / 10) ++ String (digit (n mod 10)) EmptyString
  end.

End Str.

(** ** [int] and [double] *)

(** Narrowing of an integer to a 32-bit [int] (modular, as every supported
    target does and C++20 requires). *)
Definition wrap_int (z : Z) : Z :=
  (z + 2 ^ 31) mod 2 ^ 32 - 2 ^ 31.

Definition in_int_range (z : Z) : bool :=
  (- 2 ^ 31 <=? z) && (z <? 2 ^ 31).

(** A [double] is a [spec_float] of precision 53 and maximal exponent 1024. *)
Definition double := spec_float.

(** [static_cast<double>(z)] for an integer: round to nearest, ties to even. *)
Definition double_of_Z (z : Z) : double :=
  binary_normalize 53 1024 z 0 false.

(** The integer nearest to [m * 2^e * 10^6], ties to even: the value that
    [printf("%f")] prints, scaled by a million. *)
Definition micros (m : positive) (e : Z) : Z :=
  let num := Z.pos m * 10 ^ 6 in
  if 0 <=? e then num * 2 ^ e
  else
    let den := 2 ^ (- e) in
    let q := num / den in
    let r := num mod den in
    match 2 * r ?= den with
    | Lt => q
    | Gt => q + 1
    | Eq => if Z.even q then q else q + 1
    end.

(** [std::to_string(double)], that is [printf("%f")]: six digits after the
    point. *)
Definition to_string_double (d : double) : string :=
  match d with
  | S754_zero s => (if s then "-" else "") ++ "0.000000"
  | S754_infinity s => (if s then "-" else "") ++ "inf"
  | S754_nan => "nan"
  | S754_finite s m e =>
      let u := micros m e in
      (if s then "-" else "")
        ++ Str.to_string_int (u / 10 ^ 6)
        ++ "." ++ Str.zero_padded 6 (u mod 10 ^ 6)
  end.

(** [static_cast<int>(d)]: truncation toward zero; [None] where the C++
    standard leaves the conversion undefined (not finite, or out of range). *)
Definition int_of_double (d : double) : option Z :=
  match d with
  | S754_zero _ => Some 0
  | S754_infinity _ | S754_nan => None
  | S754_finite s m e =>
      let a := if 0 <=? e then Z.pos m * 2 ^ e else Z.pos m / 2 ^ (- e) in
      let z := if s then - a else a in
      if in_int_range z then Some z else None
  end.

(** ** The two records of the source *)

Record Settings := mkSettings {
  s_preset_name : string;
  video_encoder : string;
  video_bitrate : string;
  video_preset : string;
  video_profile : string;
  video_framerate : string;
  video_quality : string;
  video_quality_type : string;
  video_multipass : bool;
  picture_width : string;
  picture_height : string;
  audio_encoder : string;
  audio_bitrate : string;
  audio_mixdown : string;
  container : string
}.

Record FFmpegParams := mkFFmpegParams {
  vcodec : string;
  acodec : string;
  audio_channels : string;
  quality : string;
  format : string;
  preset : string;
  profile : string;
  framerate : string;
  resolution : string;
  multipass : bool;
  preset_name : string
}.

(** ** The preset document: [nlohmann::json] *)

(** A parsed document.  An object keeps its members as a list of entries;
    a lookup finds the first entry with the key. *)
Inductive json : Type :=
| JNull
| JBool (b : bool)
| JInt (z : Z)
| JUInt (z : Z)
| JFloat (d : double)
| JString (s : string)
| JArray (elems : list json)
| JObject (members : list (string * json)).

(** The exceptions the accessors raise, by the library's error number. *)
Inductive exn : Type :=
| type_error (id : Z).

(** The result of an accessor: a value, an exception, or behaviour the
    language leaves undefined. *)
Inductive outcome (A : Type) : Type :=
| Ok (a : A)
| Throws (e : exn)
| Undefined.

Arguments Ok {A} a.
Arguments Throws {A} e.
Arguments Undefined {A}.

Definition bind {A B : Type} (c : outcome A) (k : A -> outcome B) : outcome B :=
  match c with
  | Ok a => k a
  | Throws e => Throws e
  | Undefined => Undefined
  end.

Declare Scope outcome_scope.
Delimit Scope outcome_scope with outcome.
Notation "x <- c ;; k" := (bind c (fun x => k))
  (at level 61, c at next level, right associativity) : outcome_scope.

Module Json.

Fixpoint find (members : list (string * json)) (key : string) : option json :=
  match members with
  | [] => None
  | (k, v) :: rest => if String.eqb k key then Some v else find rest key
  end.

(** [j.get<basic_json>()] is the identity; [j.get<std::string>()] *)
Definition get_string (j : json) : outcome string :=
  match j with
  | JString s => Ok s
  | _ => Throws (type_error 302)
  end.

(** [j.get<bool>()] *)
Definition get_bool (j : json) : outcome bool :=
  match j with
  | JBool b => Ok b
  | _ => Throws (type_error 302)
  end.

(** [j.get<int>()]: every number kind and booleans convert by
    [static_cast<int>]; anything else is type error 302. *)
Definition get_int (j : json) : outcome Z :=
  match j with
  | JInt z | JUInt z => Ok (wrap_int z)
  | JFloat d =>
      match int_of_double d with
      | Some z => Ok z
      | None => Undefined
      end
  | JBool b => Ok (if b then 1 else 0)
  | _ => Throws (type_error 302)
  end.

(** [j.get<double>()]: numbers only. *)
Definition get_double (j : json) : outcome double :=
  match j with
  | JInt z | JUInt z => Ok (double_of_Z z)
  | JFloat d => Ok d
  | _ => Throws (type_error 302)
  end.

(** [j.value(key, default)] with the getter of the default's type:
    error 306 unless [j] is an object. *)
Definition value {A : Type} (get : json -> outcome A)
    (j : json) (key : string) (default : A) : outcome A :=
  match j with
  | JObject members =>
      match find members key with
      | Some v => get v
      | None => Ok default
      end
  | _ => Throws (type_error 306)
  end.

(** [j[idx]] on a non-const value: null becomes an array, an array is
    filled up with nulls to reach [idx]; error 305 for the other kinds. *)
Definition subscript_idx (j : json) (idx : nat) : outcome json :=
  match j with
  | JNull => Ok JNull
  | JArray elems => Ok (nth idx elems JNull)
  | _ => Throws (type_error 305)
  end.

(** [j[key]] on a non-const value: a missing member is inserted as null. *)
Definition subscript_key (j : json) (key : string) : outcome json :=
  match j with
  | JNull => Ok JNull
  | JObject members =>
      match find members key with
      | Some v => Ok v
      | None => Ok JNull
      end
  | _ => Throws (type_error 305)
  end.

(** [j.contains(key)] *)
Definition contains (j : json) (key : string) : bool :=
  match j with
  | JObject members =>
      match find members key with
      | Some _ => true
      | None => false
      end
  | _ => false
  end.

(** [j.size()] *)
Definition size (j : json) : nat :=
  match j with
  | JNull => 0%nat
  | JArray elems => List.length elems
  | JObject members => List.length members
  | _ => 1%nat
  end.

(** [j.is_string()] *)
Definition is_string (j : json) : bool :=
  match j with
  | JString _ => true
  | _ => false
  end.

End Json.

(** ** Preset Extractor: [extract_preset_settings] *)

Section Extract.

Local Open Scope outcome_scope.

(** [if (j.contains(key)) std::to_string(j[key].get<int>()) else "0"] *)
Definition int_field (j : json) (key : string) : outcome string :=
  if Json.contains j key then
    v <- Json.subscript_key j key ;;
    n <- Json.get_int v ;;
    Ok (Str.to_string_int n)
  else Ok "0".

(** The framerate and the quality type: a string is taken as it is, anything
    else goes through [get<int>]; [""] when the key is absent. *)
Definition string_or_int_field (j : json) (key : string) : outcome string :=
  if Json.contains j key then
    v <- Json.subscript_key j key ;;
    if Json.is_string v then Json.get_string v
    else (n <- Json.get_int v ;; Ok (Str.to_string_int n))
  else Ok "".

(** The quality slider: [std::to_string(j[key].get<double>())]. *)
Definition double_field (j : json) (key : string) : outcome string :=
  if Json.contains j key then
    v <- Json.subscript_key j key ;;
    d <- Json.get_double v ;;
    Ok (to_string_double d)
  else Ok "0".

Definition extract_preset_settings (preset_data : json) : outcome Settings :=
  presets <- Json.value Ok preset_data "PresetList" (JArray []) ;;
  preset <- Json.subscript_idx presets 0 ;;
  audio_list <- Json.value Ok preset "AudioList" (JArray []) ;;
  audio_settings <-
    (if (0 <? Json.size audio_list)%nat
     then Json.subscript_idx audio_list 0
     else Ok (JObject [])) ;;
  preset_name <- Json.value Json.get_string preset "PresetName" "" ;;
  video_encoder <- Json.value Json.get_string preset "VideoEncoder" "" ;;
  video_bitrate <- int_field preset "VideoAvgBitrate" ;;
  video_preset <- Json.value Json.get_string preset "VideoPreset" "" ;;
  video_profile <- Json.value Json.get_string preset "VideoProfile" "" ;;
  video_framerate <- string_or_int_field preset "VideoFramerate" ;;
  video_quality <- double_field preset "VideoQualitySlider" ;;
  video_quality_type <- string_or_int_field preset "VideoQualityType" ;;
  video_multipass <- Json.value Json.get_bool preset "VideoMultiPass" false ;;
  picture_width <- int_field preset "PictureWidth" ;;
  picture_height <- int_field preset "PictureHeight" ;;
  audio_encoder <- Json.value Json.get_string audio_settings "AudioEncoder" "" ;;
  audio_bitrate <- int_field audio_settings "AudioBitrate" ;;
  audio_mixdown <- Json.value Json.get_string audio_settings "AudioMixdown" "" ;;
  container <- Json.value Json.get_string preset "FileFormat" "" ;;
  Ok (mkSettings preset_name video_encoder video_bitrate video_preset
        video_profile video_framerate video_quality video_quality_type
        video_multipass picture_width picture_height audio_encoder
        audio_bitrate audio_mixdown container).

End Extract.

(** ** Parameter Translator: [convert_to_ffmpeg_params] *)

Definition convert_to_ffmpeg_params (settings : Settings) : FFmpegParams :=
  let vcodec :=
    if String.eqb (video_encoder settings) "x265" then "libx265"
    else if String.eqb (video_encoder settings) "x264" then "libx264"
    else video_encoder settings in
  let acodec :=
    if Str.rfind0_is_0 (audio_encoder settings) "copy:" then "-c:a copy"
    else "-c:a aac -b:a " ++ audio_bitrate settings ++ "k" in
  let audio_channels :=
    if String.eqb (audio_mixdown settings) "5point1" then "-ac 6"
    else if String.eqb (audio_mixdown settings) "stereo" then "-ac 2"
    else if String.eqb (audio_mixdown settings) "mono" then "-ac 1"
    else "" in
  let quality :=
    if String.eqb (video_quality_type settings) "2"
    then "-crf " ++ video_quality settings
    else "-b:v " ++ video_bitrate settings ++ "k" in
  let format :=
    if String.eqb (container settings) "av_mkv" then "mkv"
    else if String.eqb (container settings) "av_mp4" then "mp4"
    else "mkv" in
  mkFFmpegParams vcodec acodec audio_channels quality format
    (video_preset settings) (video_profile settings)
    (video_framerate settings)
    (picture_width settings ++ "x" ++ picture_height settings)
    (video_multipass settings) (s_preset_name settings).

(** ** Command Builder *)

Inductive platform : Type := Posix | Win32.

(** [get_null_device], by the [_WIN32] conditional. *)
Definition get_null_device (p : platform) : string :=
  match p with
  | Win32 => "NUL"
  | Posix => "/dev/null"
  end.

(** The characters of [rest] up to the first delimiter, and what is left
    behind that delimiter. *)
Fixpoint getline_from (rest : string) (delimiter : ascii) : string * string :=
  match rest with
  | EmptyString => (EmptyString, EmptyString)
  | String c rest' =>
      if Ascii.eqb c delimiter then (EmptyString, rest')
      else
        let '(token, after) := getline_from rest' delimiter in
        (String c token, after)
  end.

(** [std::getline(stream, token, delimiter)] on the unread rest of the
    stream: [None] when nothing is left (the stream fails and the loop
    ends), else the token and the rest behind its delimiter. *)
Definition getline (rest : string) (delimiter : ascii) : option (string * string) :=
  match rest with
  | EmptyString => None
  | String _ _ => Some (getline_from rest delimiter)
  end.

(** The loop of [split_string]; every [getline] that succeeds consumes at
    least one character, so [fuel] beyond the length of the input is never
    used up. *)
Fixpoint split_loop (fuel : nat) (rest : string) (delimiter : ascii)
    (tokens : list string) : list string :=
  match fuel with
  | O => tokens
  | S fuel' =>
      match getline rest delimiter with
      | None => tokens
      | Some (token, after) =>
          split_loop fuel' after delimiter
            (if Str.empty token then tokens else tokens ++ [token])
      end
  end.

Definition split_string (s : string) (delimiter : ascii) : list string :=
  split_loop (S (String.length s)) s delimiter [].

(** [join_string]: the elements with the delimiter between them. *)
Fixpoint join_string (elements : list string) (delimiter : string) : string :=
  match elements with
  | [] => EmptyString
  | [e] => e
  | e :: rest => e ++ delimiter ++ join_string rest delimiter
  end.

Definition dquote : ascii := ascii_of_nat 34.
Definition space : ascii := ascii_of_nat 32.

(** [escape_string]: wrap in double quotes when there is a space. *)
Definition escape_string (s : string) : string :=
  match Str.find_char s space with
  | Some _ => String dquote s ++ String dquote EmptyString
  | None => s
  end.

(** [std::vector] updates *)
Definition push_back {A : Type} (v : list A) (x : A) : list A := v ++ [x].
Definition insert_end {A : Type} (v xs : list A) : list A := v ++ xs.
Definition pop_back {A : Type} (v : list A) : list A := removelast v.

Definition build_ffmpeg_command (input_file output_file : string)
    (ffmpeg_params : FFmpegParams) (analyze_duration probe_size : Z)
    (verbose : bool) : list string :=
  let cmd := [] in
  let cmd := push_back cmd "ffmpeg" in
  let cmd := push_back cmd "-analyzeduration" in
  let cmd := push_back cmd (Str.to_string_int analyze_duration) in
  let cmd := push_back cmd "-probesize" in
  let cmd := push_back cmd (Str.to_string_int probe_size) in
  let cmd := push_back cmd "-i" in
  let cmd := push_back cmd input_file in
  let cmd := push_back cmd "-c:v" in
  let cmd := push_back cmd (vcodec ffmpeg_params) in
  let quality_parts := split_string (quality ffmpeg_params) space in
  let cmd := insert_end cmd quality_parts in
  let cmd := push_back cmd "-preset" in
  let cmd := push_back cmd (preset ffmpeg_params) in
  let cmd :=
    if negb (String.eqb (framerate ffmpeg_params) "auto")
       && negb (Str.empty (framerate ffmpeg_params))
    then push_back (push_back cmd "-r") (framerate ffmpeg_params)
    else cmd in
  let cmd := push_back cmd "-s" in
  let cmd := push_back cmd (resolution ffmpeg_params) in
  let audio_parts := split_string (acodec ffmpeg_params) space in
  let cmd := insert_end cmd audio_parts in
  let cmd :=
    if negb (Str.empty (audio_channels ffmpeg_params))
    then insert_end cmd (split_string (audio_channels ffmpeg_params) space)
    else cmd in
  let cmd :=
    if negb (String.eqb (profile ffmpeg_params) "auto")
       && negb (Str.empty (profile ffmpeg_params))
    then push_back (push_back cmd "-profile:v") (profile ffmpeg_params)
    else cmd in
  let cmd :=
    if negb verbose
    then push_back (push_back (push_back cmd "-v") "error") "-stats"
    else cmd in
  let cmd := push_back cmd "-map" in
  let cmd := push_back cmd "0" in
  let cmd := push_back cmd output_file in
  cmd.

Definition build_multipass_commands (os : platform)
    (input_file output_file : string) (ffmpeg_params : FFmpegParams)
    (analyze_duration probe_size : Z) (verbose : bool) : list (list string) :=
  let commands := [] in
  let null_device := get_null_device os in
  let pass1_cmd :=
    build_ffmpeg_command input_file null_device ffmpeg_params
      analyze_duration probe_size verbose in
  let pass1_cmd := pop_back pass1_cmd in
  let pass1_cmd := push_back pass1_cmd "-pass" in
  let pass1_cmd := push_back pass1_cmd "1" in
  let pass1_cmd := push_back pass1_cmd "-f" in
  let pass1_cmd := push_back pass1_cmd "null" in
  let pass1_cmd := push_back pass1_cmd null_device in
  let pass2_cmd :=
    build_ffmpeg_command input_file output_file ffmpeg_params
      analyze_duration probe_size verbose in
  let pass2_cmd := push_back pass2_cmd "-pass" in
  let pass2_cmd := push_back pass2_cmd "2" in
  let commands := push_back commands pass1_cmd in
  let commands := push_back commands pass2_cmd in
  commands.

(** ** The environment: file system, console and external programs *)

(** What the program does to its environment, in the order it happens. *)
Inductive event : Type :=
| Print (line : string)                 (* a line on [std::cout] *)
| PrintErr (line : string)              (* a line on [std::cerr] *)
| System (command : string) (status : Z) (* [system(command)] returned [status] *)
| CreateDirectories (path : string)     (* [fs::create_directories] *)
| OpenForWrite (path : string)          (* [std::ofstream] opened *)
| Remove (path : string)                (* [fs::remove] *)
| Rename (from to : string).            (* [fs::rename] *)

(** The external commands of a trace, each with the status it returned. *)
Fixpoint dispatched (t : list event) : list (string * Z) :=
  match t with
  | [] => []
  | System command status :: rest => (command, status) :: dispatched rest
  | _ :: rest => dispatched rest
  end.

(** The result of a file-system call that reports failure by throwing
    [fs::filesystem_error]. *)
Inductive fs_result (W : Type) : Type :=
| Done (w : W)
| FsError (what : string).

Arguments Done {W} w.
Arguments FsError {W} what.

(** [operator<<] for [fs::path] writes the path with [std::quoted]. *)
Fixpoint quoted_body (s : string) : string :=
  match s with
  | EmptyString => EmptyString
  | String c s' =>
      if Ascii.eqb c dquote || Ascii.eqb c (ascii_of_nat 92)
      then String (ascii_of_nat 92) (String c (quoted_body s'))
      else String c (quoted_body s')
  end.

Definition quoted (p : string) : string :=
  String dquote (quoted_body p) ++ String dquote EmptyString.

(** [format_filename] *)
Definition format_filename (basename : string) (replace_underscores : bool) : string :=
  if replace_underscores
  then Str.replace_char (ascii_of_nat 95) space basename
  else basename.

(** [is_multipass] of [process_file] (and the test of [show_preset]). *)
Definition is_multipass (ffmpeg_params : FFmpegParams) : bool :=
  multipass ffmpeg_params && negb (Str.contains (quality ffmpeg_params) "-crf").

(** The invocations [process_file] builds for one file: the multipass pair
    when [is_multipass], else the single command. *)
Definition build_commands (os : platform) (input_file output_file : string)
    (ffmpeg_params : FFmpegParams) (analyze_duration probe_size : Z)
    (verbose : bool) : list (list string) :=
  if is_multipass ffmpeg_params
  then build_multipass_commands os input_file output_file ffmpeg_params
         analyze_duration probe_size verbose
  else [build_ffmpeg_command input_file output_file ffmpeg_params
          analyze_duration probe_size verbose].

(** The display form of one command: every argument through
    [escape_string], joined by spaces. *)
Definition render (cmd : list string) : string :=
  join_string (map escape_string cmd) " ".

(** [ffmpeg_cmd_str] of [process_file]. *)
Definition ffmpeg_cmd_str (os : platform) (input_file output_file : string)
    (ffmpeg_params : FFmpegParams) (analyze_duration probe_size : Z)
    (verbose : bool) : string :=
  if is_multipass ffmpeg_params
  then join_string
         (map render
            (build_multipass_commands os input_file output_file ffmpeg_params
               analyze_duration probe_size verbose)) " && "
  else render (build_ffmpeg_command input_file output_file ffmpeg_params
                 analyze_duration probe_size verbose).

(** What opening and parsing the preset file gives. *)
Inductive load_result : Type :=
| NotOpen
| ParseError (what : string)
| Loaded (data : json).

(** The operating system as the program sees it. *)
Class Env : Type := {
  (** The state of the machine outside the program. *)
  World : Type;

  (** Status queries of [std::filesystem], taken to succeed. *)
  fs_exists : string -> World -> bool;
  fs_is_directory : string -> World -> bool;
  fs_is_regular_file : string -> World -> bool;
  fs_permissions : string -> World -> Z;
  fs_equivalent : string -> string -> World -> bool;
  fs_relative : string -> string -> World -> string;
  (** The entries a directory iteration yields, and the message of the
      [filesystem_error] that ended it early, if one did. *)
  directory_entries : bool -> string -> World -> list string * option string;
  (** [std::ifstream] and [json::parse] on the preset file. *)
  read_json_file : string -> World -> load_result;

  (** Calls that change the world. *)
  fs_create_directories : string -> World -> fs_result World;
  fs_remove : string -> World -> fs_result World;
  fs_rename : string -> string -> World -> fs_result World;
  (** [std::ofstream test(p)]: [None] when [is_open()] is false. *)
  ofstream_open : string -> World -> option World;
  (** [system(command)]: the status it returns and the world it leaves. *)
  system : string -> World -> Z * World;

  (** Lexical operations of [fs::path]. *)
  parent_path : string -> string;
  stem : string -> string;
  extension : string -> string;
  path_join : string -> string -> string;

  (** The platform the program was compiled for. *)
  os : platform
}.

Section Orchestrator.

Context {env : Env}.

Record state := mkState {
  world : World;
  trace : list event
}.

Definition M (A : Type) : Type := state -> A * state.

Definition ret {A : Type} (a : A) : M A := fun st => (a, st).

Definition and_then {A B : Type} (c : M A) (k : A -> M B) : M B :=
  fun st => let '(a, st') := c st in k a st'.

Definition log (e : event) : M unit :=
  fun st => (tt, mkState (world st) (trace st ++ [e])).

Definition ask {A : Type} (q : World -> A) : M A :=
  fun st => (q (world st), st).

Definition set_world (w : World) : M unit :=
  fun st => (tt, mkState w (trace st)).

Declare Scope io_scope.
Delimit Scope io_scope with io.
Notation "x <- c ;; k" := (and_then c (fun x => k))
  (at level 61, c at next level, right associativity) : io_scope.
Notation "c ;; k" := (and_then c (fun _ => k))
  (at level 61, right associativity) : io_scope.

Local Open Scope io_scope.

Definition print (line : string) : M unit := log (Print line).

(** [fs::perms::none] *)
Definition perms_none : Z := 0.

Definition check_file_access (file_path : string) : M bool :=
  let path := file_path in
  let dir_path := parent_path path in
  is_dir <- ask (fs_is_directory dir_path) ;;
  if negb is_dir then
    print ("Error: Output directory '" ++ dir_path ++ "' does not exist.") ;;
    ret false
  else
    present <- ask (fs_exists path) ;;
    perms <- ask (fs_permissions path) ;;
    if present && (perms =? perms_none) then
      print ("Error: Output file '" ++ file_path
               ++ "' exists but is not writable.") ;;
      ret false
    else
      let test_file := path_join dir_path ".write_test_temp" in
      opened <- ask (ofstream_open test_file) ;;
      match opened with
      | None =>
          print ("Error: Output directory '" ++ dir_path
                   ++ "' is not writable.") ;;
          ret false
      | Some w =>
          log (OpenForWrite test_file) ;;
          set_world w ;;
          removed <- ask (fs_remove test_file) ;;
          match removed with
          | FsError _ =>
              print ("Error: Output directory '" ++ dir_path
                       ++ "' is not writable.") ;;
              ret false
          | Done w' =>
              log (Remove test_file) ;;
              set_world w' ;;
              ret true
          end
      end.

Definition execute_command (cmd : list string) (verbose : bool) : M Z :=
  let command := join_string cmd " " in
  (if verbose then print ("Executing: " ++ command) else ret tt) ;;
  r <- ask (system command) ;;
  log (System command (fst r)) ;;
  set_world (snd r) ;;
  ret (fst r).

Definition rename_to_m4v (file_path : string) (dry_run : bool) : M bool :=
  let path := file_path in
  let m4v_path := path_join (parent_path path) (stem path ++ ".m4v") in
  if dry_run then
    print ("[DRY RUN] Would rename " ++ file_path ++ " to " ++ quoted m4v_path) ;;
    ret true
  else
    print ("Renaming " ++ file_path ++ " to " ++ quoted m4v_path) ;;
    present <- ask (fs_exists path) ;;
    if present then
      renamed <- ask (fs_rename path m4v_path) ;;
      match renamed with
      | Done w => log (Rename path m4v_path) ;; set_world w ;; ret true
      | FsError what =>
          print ("Error renaming file to .m4v: " ++ what) ;;
          ret false
      end
    else
      print ("Error: File " ++ file_path ++ " not found for renaming") ;;
      ret false.

Definition get_file_info (file_path : string) : M unit :=
  print ("File information for " ++ file_path ++ ":") ;;
  let cmd := "ffprobe -hide_banner -v error -show_format -show_streams "
               ++ String dquote file_path ++ String dquote EmptyString in
  r <- ask (system cmd) ;;
  log (System cmd (fst r)) ;;
  set_world (snd r).

Definition nat_to_string (n : nat) : string := Str.to_string_int (Z.of_nat n).

(** The loop over the passes: [i] commands have run, [result_code] is the
    status of the last one; a non-zero status leaves the loop. *)
Fixpoint run_passes (cmds : list (list string)) (i total : nat)
    (verbose : bool) (result_code : Z) : M Z :=
  match cmds with
  | [] => ret result_code
  | cmd :: rest =>
      print ("Running pass " ++ nat_to_string (i + 1) ++ " of "
               ++ nat_to_string total ++ "...") ;;
      result_code <- execute_command cmd verbose ;;
      if negb (result_code =? 0) then ret result_code
      else run_passes rest (S i) total verbose result_code
  end.

Definition process_file (input_file media_dir output_dir : string)
    (ffmpeg_params : FFmpegParams) (original_format output_format : string)
    (force_m4v execute dry_run replace_underscores : bool)
    (analyze_duration probe_size : Z) (verbose : bool) : M Z :=
  rel_path <- ask (fs_relative input_file media_dir) ;;
  let dir_part := parent_path rel_path in
  let output_subdir :=
    if negb (Str.empty dir_part) then path_join output_dir dir_part
    else output_dir in
  let basename := stem input_file in
  let formatted_basename := format_filename basename replace_underscores in
  let actual_format :=
    if force_m4v && execute then original_format else output_format in
  let output_file :=
    path_join output_subdir (formatted_basename ++ "." ++ actual_format) in
  subdir_exists <- ask (fs_exists output_subdir) ;;
  created <-
    (if negb subdir_exists then
       if negb dry_run then
         print ("Creating output directory: " ++ quoted output_subdir) ;;
         made <- ask (fs_create_directories output_subdir) ;;
         match made with
         | Done w =>
             log (CreateDirectories output_subdir) ;; set_world w ;; ret true
         | FsError what =>
             print ("Error creating directory: " ++ quoted output_subdir
                      ++ ": " ++ what) ;;
             ret false
         end
       else
         print ("[DRY RUN] Would create directory: " ++ quoted output_subdir) ;;
         ret true
     else ret true) ;;
  if negb created then ret 1
  else
    access <-
      (if negb dry_run && execute then check_file_access output_file
       else ret true) ;;
    if negb access then
      print ("Skipping " ++ input_file ++ " due to output file access issues.") ;;
      ret 1
    else
      let is_multipass := is_multipass ffmpeg_params in
      let ffmpeg_cmd_str :=
        ffmpeg_cmd_str os input_file output_file ffmpeg_params
          analyze_duration probe_size verbose in
      if dry_run then
        print "[DRY RUN] Would execute:" ;;
        print ffmpeg_cmd_str ;;
        (if force_m4v then
           let m4v_output :=
             path_join (parent_path output_file) (stem output_file ++ ".m4v") in
           print ("[DRY RUN] Would rename " ++ quoted output_file ++ " to "
                    ++ quoted m4v_output)
         else ret tt) ;;
        ret 0
      else if execute then
        print ("Processing: " ++ input_file) ;;
        print ("Output: " ++ quoted output_file) ;;
        print ("Command: " ++ ffmpeg_cmd_str) ;;
        result_code <-
          (if is_multipass then
             let ffmpeg_cmds :=
               build_multipass_commands os input_file output_file
                 ffmpeg_params analyze_duration probe_size verbose in
             run_passes ffmpeg_cmds 0 (List.length ffmpeg_cmds) verbose 0
           else
             let ffmpeg_cmd :=
               build_ffmpeg_command input_file output_file ffmpeg_params
                 analyze_duration probe_size verbose in
             execute_command ffmpeg_cmd verbose) ;;
        if result_code =? 0 then
          print "Conversion successful" ;;
          (if force_m4v then
             renamed <- rename_to_m4v output_file dry_run ;;
             if negb renamed
             then print "Warning: Failed to rename file to .m4v"
             else ret tt
           else ret tt) ;;
          ret 0
        else
          print ("Error: FFmpeg command failed with return code "
                   ++ Str.to_string_int result_code) ;;
          print "Checking input file..." ;;
          get_file_info input_file ;;
          ret 1
      else
        print ("Generated command for " ++ input_file ++ ":") ;;
        print ffmpeg_cmd_str ;;
        (if force_m4v then
           print ("Note: If executed, the file will be converted to "
                    ++ actual_format ++ " then renamed to .m4v")
         else ret tt) ;;
        ret 0.

(** The value [process_file] computes for [output_subdir], given the world
    it starts in. *)
Definition parent_path_of_output (input_file media_dir output_dir : string)
    (w : World) : string :=
  let rel_path := fs_relative input_file media_dir w in
  let dir_part := parent_path rel_path in
  if negb (Str.empty dir_part) then path_join output_dir dir_part
  else output_dir.

(** The value [process_file] computes for [output_file], given the world
    it starts in. *)
Definition resolved_output_file (input_file media_dir output_dir : string)
    (original_format output_format : string)
    (force_m4v execute replace_underscores : bool) (w : World) : string :=
  let rel_path := fs_relative input_file media_dir w in
  let dir_part := parent_path rel_path in
  let output_subdir :=
    if negb (Str.empty dir_part) then path_join output_dir dir_part
    else output_dir in
  let actual_format :=
    if force_m4v && execute then original_format else output_format in
  path_join output_subdir
    (format_filename (stem input_file) replace_underscores
       ++ "." ++ actual_format).

(** *** The batch: [find_media_files] and [main] *)

Record CmdOptions := mkCmdOptions {
  opt_json_file : string;
  opt_recursive : bool;
  opt_execute : bool;
  opt_dry_run : bool;
  opt_show_preset : bool;
  opt_force_m4v : bool;
  opt_no_underscore_replace : bool;
  opt_verbose : bool;
  opt_input_dir : string;
  opt_output_dir : string;
  opt_ignore_flag : string;
  opt_log_file : string
}.

Definition MEDIA_EXTENSIONS : list string :=
  ["mp4"; "mkv"; "avi"; "mov"; "wmv"; "flv"; "webm"; "m4v"; "mpg"; "mpeg"; "ts"].

(** [std::tolower] in the "C" locale. *)
Definition tolower (c : ascii) : ascii :=
  let n := nat_of_ascii c in
  if ((65 <=? n) && (n <=? 90))%nat then ascii_of_nat (n + 32) else c.

Fixpoint lowercase (s : string) : string :=
  match s with
  | EmptyString => EmptyString
  | String c s' => String (tolower c) (lowercase s')
  end.

Definition is_media_file (extensions : list string) (w : World) (entry : string) : bool :=
  fs_is_regular_file entry w
  && negb (Str.empty (extension entry))
  && existsb (String.eqb (lowercase (Str.substr_from (extension entry) 1)))
       extensions.

Definition find_media_files (directory : string) (recursive : bool)
    (extensions : list string) : M (list string) :=
  found <- ask (directory_entries recursive directory) ;;
  w <- ask (fun w => w) ;;
  let result := filter (is_media_file extensions w) (fst found) in
  match snd found with
  | Some what =>
      log (PrintErr ("Error accessing directory: " ++ what)) ;; ret result
  | None => ret result
  end.

Definition should_ignore_file (file_path ignore_flag : string) : M bool :=
  ask (fs_exists (path_join (parent_path file_path) ignore_flag)).

Definition show_preset (ffmpeg_params : FFmpegParams) (output_format : string)
    (analyze_duration probe_size : Z) : M unit :=
  let bar := "============================================" in
  print bar ;;
  print ("Handbrake Preset: " ++ preset_name ffmpeg_params) ;;
  print "FFmpeg Equivalent Parameters:" ;;
  print bar ;;
  print ("Video codec:      -c:v " ++ vcodec ffmpeg_params) ;;
  print ("Quality:          " ++ quality ffmpeg_params) ;;
  print ("Preset:           -preset " ++ preset ffmpeg_params) ;;
  (if negb (String.eqb (framerate ffmpeg_params) "auto")
      && negb (Str.empty (framerate ffmpeg_params))
   then print ("Framerate:        -r " ++ framerate ffmpeg_params)
   else ret tt) ;;
  print ("Resolution:       -s " ++ resolution ffmpeg_params) ;;
  print ("Audio:            " ++ acodec ffmpeg_params ++ " "
           ++ audio_channels ffmpeg_params) ;;
  (if negb (String.eqb (profile ffmpeg_params) "auto")
      && negb (Str.empty (profile ffmpeg_params))
   then print ("Profile:          -profile:v " ++ profile ffmpeg_params)
   else ret tt) ;;
  print ("Output format:    " ++ output_format) ;;
  (if is_multipass ffmpeg_params
   then print "Multipass:        Enabled (two-pass encoding)"
   else print "Multipass:        Disabled (single-pass encoding)") ;;
  print ("Analyze duration: " ++ Str.to_string_int analyze_duration) ;;
  print ("Probe size:       " ++ Str.to_string_int probe_size) ;;
  print bar ;;
  print "Example usage:" ;;
  print ("ffmpeg -analyzeduration " ++ Str.to_string_int analyze_duration
           ++ " -probesize " ++ Str.to_string_int probe_size
           ++ " -i input.mp4 -c:v " ++ vcodec ffmpeg_params ++ " "
           ++ quality ffmpeg_params ++ " -preset " ++ preset ffmpeg_params
           ++ " -s " ++ resolution ffmpeg_params ++ " "
           ++ acodec ffmpeg_params ++ " " ++ audio_channels ffmpeg_params
           ++ " output." ++ output_format) ;;
  print bar.

(** The rewrite of a doubled "converted" segment in [main]: the first
    occurrence of [double_converted] is replaced by [converted_path]. *)
Definition dedupe_converted (output_dir : string) : string :=
  let converted_path := "converted" in
  let double_converted := path_join "converted" "converted" in
  match Str.find output_dir double_converted with
  | Some pos =>
      Str.replace output_dir pos (String.length double_converted) converted_path
  | None => output_dir
  end.

Record counters := mkCounters {
  file_count : Z;
  skipped_count : Z;
  error_count : Z
}.

(** The loop of [main] over the media files. *)
Fixpoint process_all (media_files : list string) (args : CmdOptions)
    (ffmpeg_params : FFmpegParams) (original_format output_format : string)
    (analyze_duration probe_size : Z) (n : counters) : M counters :=
  match media_files with
  | [] => ret n
  | file :: rest =>
      let continue n' :=
        process_all rest args ffmpeg_params original_format output_format
          analyze_duration probe_size n' in
      same <- ask (fs_equivalent file (opt_json_file args)) ;;
      if same then continue n
      else
        ignored <- should_ignore_file file (opt_ignore_flag args) ;;
        if ignored then
          print ("Skipping: " ++ file ++ " (ignore flag found)") ;;
          continue (mkCounters (file_count n) (skipped_count n + 1) (error_count n))
        else
          result <-
            process_file file (opt_input_dir args) (opt_output_dir args)
              ffmpeg_params original_format output_format
              (opt_force_m4v args) (opt_execute args) (opt_dry_run args)
              (negb (opt_no_underscore_replace args))
              analyze_duration probe_size (opt_verbose args) ;;
          if result =? 0 then
            continue (mkCounters (file_count n + 1) (skipped_count n) (error_count n))
          else
            print ("Failed to process: " ++ file) ;;
            continue (mkCounters (file_count n) (skipped_count n) (error_count n + 1))
  end.

Definition with_input_dir (args : CmdOptions) (d : string) : CmdOptions :=
  mkCmdOptions (opt_json_file args) (opt_recursive args) (opt_execute args)
    (opt_dry_run args) (opt_show_preset args) (opt_force_m4v args)
    (opt_no_underscore_replace args) (opt_verbose args) d
    (opt_output_dir args) (opt_ignore_flag args) (opt_log_file args).

Definition with_output_dir (args : CmdOptions) (d : string) : CmdOptions :=
  mkCmdOptions (opt_json_file args) (opt_recursive args) (opt_execute args)
    (opt_dry_run args) (opt_show_preset args) (opt_force_m4v args)
    (opt_no_underscore_replace args) (opt_verbose args) (opt_input_dir args)
    d (opt_ignore_flag args) (opt_log_file args).

(** [main] from the point where the preset has been translated. *)
Definition run_batch (args : CmdOptions) (ffmpeg_params : FFmpegParams) : M Z :=
  let analyze_duration := 100000000 in
  let probe_size := 100000000 in
  let original_format := format ffmpeg_params in
  let output_format :=
    if opt_force_m4v args && negb (opt_execute args) then "m4v"
    else format ffmpeg_params in
  (if opt_force_m4v args && negb (opt_execute args) then
     print "Forcing output extension to .m4v"
   else if opt_force_m4v args then
     print ("Force m4v is enabled. Files will be converted to "
              ++ original_format ++ " first, then renamed to .m4v")
   else ret tt) ;;
  if opt_show_preset args then
    show_preset ffmpeg_params output_format analyze_duration probe_size ;;
    ret 0
  else
    args <-
      (if Str.empty (opt_input_dir args) then
         let d := parent_path (opt_json_file args) in
         print ("Using media directory: " ++ d) ;;
         ret (with_input_dir args d)
       else ret args) ;;
    args <-
      (if Str.empty (opt_output_dir args) then
         let d := path_join (opt_input_dir args) "converted" in
         print ("Using output directory: " ++ d) ;;
         ret (with_output_dir args d)
       else ret args) ;;
    let args := with_output_dir args (dedupe_converted (opt_output_dir args)) in
    out_exists <- ask (fs_exists (opt_output_dir args)) ;;
    created <-
      (if negb out_exists && negb (opt_dry_run args) then
         print ("Creating output directory: " ++ opt_output_dir args) ;;
         made <- ask (fs_create_directories (opt_output_dir args)) ;;
         match made with
         | Done w =>
             log (CreateDirectories (opt_output_dir args)) ;;
             set_world w ;; ret true
         | FsError what =>
             log (PrintErr ("Error creating output directory: " ++ what)) ;;
             ret false
         end
       else ret true) ;;
    if negb created then ret 1
    else
      print ("Searching for media files in " ++ opt_input_dir args) ;;
      print ("Files with the '" ++ opt_ignore_flag args
               ++ "' file in their directory will be skipped") ;;
      print ("Output directory set to: " ++ opt_output_dir args) ;;
      print ("Using analyzeduration: " ++ Str.to_string_int analyze_duration
               ++ ", probesize: " ++ Str.to_string_int probe_size) ;;
      (if negb (opt_no_underscore_replace args) then
         print "Underscores in filenames will be replaced with spaces in output files"
       else
         print "Output filenames will maintain the same format as input filenames") ;;
      (if opt_recursive args then print "Recursive search enabled"
       else print "Non-recursive search") ;;
      (if opt_verbose args then print "Verbose output enabled" else ret tt) ;;
      media_files <-
        find_media_files (opt_input_dir args) (opt_recursive args)
          MEDIA_EXTENSIONS ;;
      n <- process_all media_files args ffmpeg_params original_format
             output_format analyze_duration probe_size (mkCounters 0 0 0) ;;
      print "Processing complete:" ;;
      print ("  - Successfully processed: " ++ Str.to_string_int (file_count n)
               ++ " files") ;;
      print ("  - Skipped: " ++ Str.to_string_int (skipped_count n) ++ " files") ;;
      print ("  - Failed: " ++ Str.to_string_int (error_count n) ++ " files") ;;
      (if (file_count n =? 0) && (skipped_count n =? 0) && (error_count n =? 0)
       then print "No media files found in the specified directory."
       else ret tt) ;;
      ret (if 0 <? error_count n then 1 else 0).

(** [main] behind [parse_arguments]: the tool checks, the preset, the
    batch.  The process ends with an exit status, or by the exception (or
    the undefined conversion) that escapes [extract_preset_settings]. *)
Definition main (args : CmdOptions) : M (outcome Z) :=
  r <- ask (system "ffmpeg -version > /dev/null 2>&1") ;;
  log (System "ffmpeg -version > /dev/null 2>&1" (fst r)) ;;
  set_world (snd r) ;;
  if negb (fst r =? 0) then
    log (PrintErr "Error: ffmpeg is required but not installed. Please install ffmpeg.") ;;
    ret (Ok 1)
  else
    r <- ask (system "ffprobe -version > /dev/null 2>&1") ;;
    log (System "ffprobe -version > /dev/null 2>&1" (fst r)) ;;
    set_world (snd r) ;;
    if negb (fst r =? 0) then
      log (PrintErr "Error: ffprobe is required but not installed. Please install ffprobe.") ;;
      ret (Ok 1)
    else
      (if negb (Str.empty (opt_log_file args)) then
         opened <- ask (ofstream_open (opt_log_file args)) ;;
         match opened with
         | None =>
             log (PrintErr ("Error: Could not open log file: " ++ opt_log_file args))
         | Some w => log (OpenForWrite (opt_log_file args)) ;; set_world w
         end
       else ret tt) ;;
      loaded <- ask (read_json_file (opt_json_file args)) ;;
      match loaded with
      | NotOpen =>
          log (PrintErr ("Error: JSON file '" ++ opt_json_file args
                           ++ "' does not exist.")) ;;
          ret (Ok 1)
      | ParseError what =>
          log (PrintErr ("Error: Failed to parse '" ++ opt_json_file args
                           ++ "' as valid JSON: " ++ what)) ;;
          ret (Ok 1)
      | Loaded preset_data =>
          match extract_preset_settings preset_data with
          | Ok settings =>
              status <- run_batch args (convert_to_ffmpeg_params settings) ;;
              ret (Ok status)
          | Throws e => ret (Throws e)
          | Undefined => ret Undefined
          end
      end.

End Orchestrator.


(** The command [get_file_info] hands to [system]. *)
Definition probe_command (file_path : string) : string :=
  "ffprobe -hide_banner -v error -show_format -show_streams "
    ++ String dquote file_path ++ String dquote EmptyString.

(** The counters after one more failed, or one more processed, file. *)
Definition failed (n : counters) : counters :=
  mkCounters (file_count n) (skipped_count n) (error_count n + 1).

Definition processed (n : counters) : counters :=
  mkCounters (file_count n + 1) (skipped_count n) (error_count n).

(** The ways a two-pass job on [file] can go: [cmds] are the commands
    dispatched, in order, each with the status it returned, and [ok] tells
    whether the file counts as processed.
    - nothing is dispatched (the output location was refused);
    - pass 1 returns a non-zero status: the probe follows, pass 2 does not;
    - pass 1 returns 0 and pass 2 fails: the probe follows;
    - both passes return 0. *)
Definition two_pass_outcome (file : string) (pass1 pass2 : list string)
    (cmds : list (string * Z)) (ok : bool) : Prop :=
  (cmds = [] /\ ok = false)
  \/ (exists s1 s, s1 <> 0
        /\ cmds = [(join_string pass1 " ", s1); (probe_command file, s)]
        /\ ok = false)
  \/ (exists s2 s, s2 <> 0
        /\ cmds = [(join_string pass1 " ", 0); (join_string pass2 " ", s2);
                   (probe_command file, s)]
        /\ ok = false)
  \/ (cmds = [(join_string pass1 " ", 0); (join_string pass2 " ", 0)]
      /\ ok = true).

(** ** Command line: [show_usage] and [parse_arguments] *)

Definition SCRIPT_VERSION : string := "0.9".

(** The lines [show_usage] prints before it ends the process with status 1. *)
Definition show_usage (progname : string) : list event :=
  [Print ("Usage: " ++ progname ++ " [input_json_file] [options]");
   Print "Options:";
   Print "  -r, --recursive    Process media files recursively in subdirectories";
   Print "  -e, --execute      Execute the generated ffmpeg commands";
   Print "  -d, --dry-run      Show what would be done without actually doing it";
   Print "  -p, --show-preset  Show only the ffmpeg equivalent of the preset";
   Print "  -i, --input-dir    Specify input directory (default: same as JSON file)";
   Print "  -o, --output-dir   Specify output directory (default: input_dir/converted)";
   Print "  -m, --force-m4v    Force output extension to .m4v regardless of container";
   Print "  -u, --no-underscore-replace  Don't replace underscores with spaces in output filenames";
   Print "  --ignore-flag=X    Set custom ignore flag file (default: .noconvert)";
   Print "  --verbose          Show verbose output and ffmpeg logs";
   Print ("  -v, --version      Show version: " ++ SCRIPT_VERSION);
   Print "  -h, --help         Show this help message";
   Print "";
   Print "Special Features:";
   Print "  - Files will be skipped if a '.noconvert' file exists in the same directory";
   Print "  - Use -m/--force-m4v to output all files with .m4v extension";
   Print "  - By default, underscores in filenames are replaced with spaces"].

(** What [parse_arguments] comes to: the options, or the end of the process
    by [exit(status)] after some output. *)
Inductive parse_result : Type :=
| Parsed (options : CmdOptions)
| Exited (status : Z) (output : list event).

(** A default-constructed [CmdOptions]. *)
Definition default_options : CmdOptions :=
  mkCmdOptions "" false false false false false false false "" ""
    ".noconvert" "".

Definition with_json_file (o : CmdOptions) (f : string) : CmdOptions :=
  mkCmdOptions f (opt_recursive o) (opt_execute o) (opt_dry_run o)
    (opt_show_preset o) (opt_force_m4v o) (opt_no_underscore_replace o)
    (opt_verbose o) (opt_input_dir o) (opt_output_dir o) (opt_ignore_flag o)
    (opt_log_file o).

Definition with_recursive (o : CmdOptions) : CmdOptions :=
  mkCmdOptions (opt_json_file o) true (opt_execute o) (opt_dry_run o)
    (opt_show_preset o) (opt_force_m4v o) (opt_no_underscore_replace o)
    (opt_verbose o) (opt_input_dir o) (opt_output_dir o) (opt_ignore_flag o)
    (opt_log_file o).

Definition with_execute (o : CmdOptions) : CmdOptions :=
  mkCmdOptions (opt_json_file o) (opt_recursive o) true (opt_dry_run o)
    (opt_show_preset o) (opt_force_m4v o) (opt_no_underscore_replace o)
    (opt_verbose o) (opt_input_dir o) (opt_output_dir o) (opt_ignore_flag o)
    (opt_log_file o).

Definition with_dry_run (o : CmdOptions) : CmdOptions :=
  mkCmdOptions (opt_json_file o) (opt_recursive o) (opt_execute o) true
    (opt_show_preset o) (opt_force_m4v o) (opt_no_underscore_replace o)
    (opt_verbose o) (opt_input_dir o) (opt_output_dir o) (opt_ignore_flag o)
    (opt_log_file o).

Definition with_show_preset (o : CmdOptions) : CmdOptions :=
  mkCmdOptions (opt_json_file o) (opt_recursive o) (opt_execute o)
    (opt_dry_run o) true (opt_force_m4v o) (opt_no_underscore_replace o)
    (opt_verbose o) (opt_input_dir o) (opt_output_dir o) (opt_ignore_flag o)
    (opt_log_file o).

Definition with_force_m4v (o : CmdOptions) : CmdOptions :=
  mkCmdOptions (opt_json_file o) (opt_recursive o) (opt_execute o)
    (opt_dry_run o) (opt_show_preset o) true (opt_no_underscore_replace o)
    (opt_verbose o) (opt_input_dir o) (opt_output_dir o) (opt_ignore_flag o)
    (opt_log_file o).

Definition with_no_underscore_replace (o : CmdOptions) : CmdOptions :=
  mkCmdOptions (opt_json_file o) (opt_recursive o) (opt_execute o)
    (opt_dry_run o) (opt_show_preset o) (opt_force_m4v o) true
    (opt_verbose o) (opt_input_dir o) (opt_output_dir o) (opt_ignore_flag o)
    (opt_log_file o).

Definition with_verbose (o : CmdOptions) : CmdOptions :=
  mkCmdOptions (opt_json_file o) (opt_recursive o) (opt_execute o)
    (opt_dry_run o) (opt_show_preset o) (opt_force_m4v o)
    (opt_no_underscore_replace o) true (opt_input_dir o) (opt_output_dir o)
    (opt_ignore_flag o) (opt_log_file o).

Definition with_ignore_flag (o : CmdOptions) (f : string) : CmdOptions :=
  mkCmdOptions (opt_json_file o) (opt_recursive o) (opt_execute o)
    (opt_dry_run o) (opt_show_preset o) (opt_force_m4v o)
    (opt_no_underscore_replace o) (opt_verbose o) (opt_input_dir o)
    (opt_output_dir o) f (opt_log_file o).

Definition with_log_file (o : CmdOptions) (f : string) : CmdOptions :=
  mkCmdOptions (opt_json_file o) (opt_recursive o) (opt_execute o)
    (opt_dry_run o) (opt_show_preset o) (opt_force_m4v o)
    (opt_no_underscore_replace o) (opt_verbose o) (opt_input_dir o)
    (opt_output_dir o) (opt_ignore_flag o) f.

(** [a == x || a == y] *)
Definition is_either (a x y : string) : bool := String.eqb a x || String.eqb a y.

(** The loop of [parse_arguments] over [argv[2]], [argv[3]], ...: [args] is
    what is left of the command line. *)
Fixpoint parse_loop (progname : string) (args : list string)
    (options : CmdOptions) : parse_result :=
  match args with
  | [] => Parsed options
  | arg :: rest =>
      if is_either arg "-r" "--recursive" then
        parse_loop progname rest (with_recursive options)
      else if is_either arg "-e" "--execute" then
        parse_loop progname rest (with_execute options)
      else if is_either arg "-d" "--dry-run" then
        parse_loop progname rest (with_dry_run options)
      else if is_either arg "-p" "--show-preset" then
        parse_loop progname rest (with_show_preset options)
      else if is_either arg "-m" "--force-m4v" then
        parse_loop progname rest (with_force_m4v options)
      else if is_either arg "-u" "--no-underscore-replace" then
        parse_loop progname rest (with_no_underscore_replace options)
      else if String.eqb arg "--verbose" then
        parse_loop progname rest (with_verbose options)
      else if is_either arg "-h" "--help" then
        Exited 1 (show_usage progname)
      else if is_either arg "-v" "--version" then
        Exited 0 [Print ("Script Version=" ++ SCRIPT_VERSION)]
      else if String.eqb (String.substring 0 14 arg) "--ignore-flag=" then
        parse_loop progname rest
          (with_ignore_flag options (Str.substr_from arg 14))
      else if is_either arg "-i" "--input-dir" then
        match rest with
        | value :: rest' =>
            parse_loop progname rest' (with_input_dir options value)
        | [] => Exited 1 (show_usage progname)
        end
      else if is_either arg "-o" "--output-dir" then
        match rest with
        | value :: rest' =>
            parse_loop progname rest' (with_output_dir options value)
        | [] => Exited 1 (show_usage progname)
        end
      else if is_either arg "-l" "--log" then
        match rest with
        | value :: rest' =>
            parse_loop progname rest' (with_log_file options value)
        | [] => Exited 1 (show_usage progname)
        end
      else
        Exited 1 (PrintErr ("Unknown option: " ++ arg) :: show_usage progname)
  end.

(** [parse_arguments]: [progname] is [argv[0]], [args] the rest of [argv]. *)
Definition parse_arguments (progname : string) (args : list string)
    : parse_result :=
  match args with
  | [] => Exited 1 (show_usage progname)
  | json_file :: rest =>
      parse_loop progname rest (with_json_file default_options json_file)
  end.

(** ** Splitting and tokenizing, as the specification words them *)

(** The fields of [s] between delimiters, empty ones included. *)
Fixpoint fields (delimiter : ascii) (s : string) : list string :=
  match s with
  | EmptyString => [EmptyString]
  | String c s' =>
      if Ascii.eqb c delimiter then EmptyString :: fields delimiter s'
      else
        match fields delimiter s' with
        | f :: fs => String c f :: fs
        | [] => [String c EmptyString]
        end
  end.

(** "Split on spaces into separate arguments": the non-empty fields. *)
Definition split_on (delimiter : ascii) (s : string) : list string :=
  filter (fun f => negb (Str.empty f)) (fields delimiter s).

(** Parsing a rendered command back "into space-separated tokens, respecting
    quoted segments": outside quotes a space ends the token, a double quote
    opens a segment that runs to the next double quote and keeps its spaces;
    the quotes themselves are dropped.  [started] tells that a token has
    begun, [token] holds its characters in reverse. *)
Fixpoint tokenize_from (s : string) (in_quotes started : bool)
    (token : list ascii) : list string :=
  let finish :=
    if started then [string_of_list_ascii (rev token)] else [] in
  match s with
  | EmptyString => finish
  | String c s' =>
      if in_quotes then
        if Ascii.eqb c dquote then tokenize_from s' false true token
        else tokenize_from s' true true (c :: token)
      else if Ascii.eqb c dquote then tokenize_from s' true true token
      else if Ascii.eqb c space then finish ++ tokenize_from s' false false []
      else tokenize_from s' false true (c :: token)
  end.

Definition tokenize (s : string) : list string :=
  tokenize_from s false false [].

(** An argument that survives rendering and tokenizing: not empty, no
    double quote in it. *)
Definition plain_arg (a : string) : bool :=
  negb (Str.empty a) && negb (Str.contains a (String dquote EmptyString)).

(** [pat] occurs somewhere in [s]. *)
Definition occurs (pat s : string) : Prop :=
  exists pre post, s = pre ++ pat ++ post.

(** [needle] occurs in [hay] as a run of consecutive arguments. *)
Definition consecutive_args (needle hay : list string) : Prop :=
  exists before after, hay = (before ++ needle ++ after)%list.

(** ** Vocabulary for the properties of the orchestrator *)

(** Console output: the events that leave the file system and the external
    programs alone. *)
Definition is_print (e : event) : bool :=
  match e with
  | Print _ | PrintErr _ => true
  | _ => false
  end.




(** The boolean switches of the command line, short and long. *)
Definition is_switch (arg : string) : bool :=
  existsb (String.eqb arg)
    ["-r"; "--recursive"; "-e"; "--execute"; "-d"; "--dry-run";
     "-p"; "--show-preset"; "-m"; "--force-m4v";
     "-u"; "--no-underscore-replace"; "--verbose"].

(** Whether one of two spellings is among the arguments. *)
Definition given (x y : string) (args : list string) : bool :=
  existsb (fun a => is_either a x y) args.

(** The options after the switches among [args] have been turned on. *)
Definition switched (o : CmdOptions) (args : list string) : CmdOptions :=
  mkCmdOptions (opt_json_file o)
    (opt_recursive o || given "-r" "--recursive" args)
    (opt_execute o || given "-e" "--execute" args)
    (opt_dry_run o || given "-d" "--dry-run" args)
    (opt_show_preset o || given "-p" "--show-preset" args)
    (opt_force_m4v o || given "-m" "--force-m4v" args)
    (opt_no_underscore_replace o || given "-u" "--no-underscore-replace" args)
    (opt_verbose o || existsb (String.eqb "--verbose") args)
    (opt_input_dir o) (opt_output_dir o) (opt_ignore_flag o) (opt_log_file o).

(** The keys [extract_preset_settings] looks up in the preset. *)
Definition preset_keys : list string :=
  ["AudioList"; "PresetName"; "VideoEncoder"; "VideoAvgBitrate";
   "VideoPreset"; "VideoProfile"; "VideoFramerate"; "VideoQualitySlider";
   "VideoQualityType"; "VideoMultiPass"; "PictureWidth"; "PictureHeight";
   "FileFormat"].

(** The settings of a preset that holds none of them. *)
Definition default_settings : Settings :=
  mkSettings "" "" "0" "" "" "" "0" "" false "0" "0" "" "0" "" "".

(** How many files the three counters stand for. *)
Definition total (n : counters) : Z :=
  file_count n + skipped_count n + error_count n.

Definition skipped (n : counters) (k : Z) : counters :=
  mkCounters (file_count n) (skipped_count n + k) (error_count n).

(** The number of arguments that [escape_string] wraps in quotes. *)
Definition spaced (a : string) : bool :=
  match Str.find_char a space with
  | Some _ => true
  | None => false
  end.

(** The characters of a string. *)
Fixpoint has_char (c : ascii) (s : string) : bool :=
  match s with
  | EmptyString => false
  | String a s' => Ascii.eqb a c || has_char c s'
  end.

(** The sum of the lengths of the elements. *)
Fixpoint total_length (l : list string) : nat :=
  match l with
  | [] => 0%nat
  | a :: rest => (String.length a + total_length rest)%nat
  end.

(** ** A simulated environment, for running the model on concrete inputs *)

Module Sim.

Record sim_world := mkWorld {
  dirs : list string;             (* the directories that exist *)
  files : list (string * Z);      (* the regular files, with permission bits *)
  documents : list (string * json);  (* the parsed content of preset files *)
  failing : list string           (* a command containing one of these fails *)
}.

Definition mem (p : string) (l : list string) : bool := existsb (String.eqb p) l.

Fixpoint lookup {A : Type} (p : string) (l : list (string * A)) : option A :=
  match l with
  | [] => None
  | (k, v) :: rest => if String.eqb k p then Some v else lookup p rest
  end.

(** [s] cut at the last occurrence of [c]. *)
Fixpoint split_last (c : ascii) (s : string) : option (string * string) :=
  match s with
  | EmptyString => None
  | String a s' =>
      match split_last c s' with
      | Some (before, after) => Some (String a before, after)
      | None => if Ascii.eqb a c then Some (EmptyString, s') else None
      end
  end.

Definition slash : ascii := ascii_of_nat 47.
Definition dot : ascii := ascii_of_nat 46.

(** Paths in generic POSIX form, without redundant separators. *)
Definition sim_parent_path (p : string) : string :=
  match split_last slash p with
  | Some (before, _) => before
  | None => EmptyString
  end.

Definition sim_filename (p : string) : string :=
  match split_last slash p with
  | Some (_, after) => after
  | None => p
  end.

Definition sim_stem (p : string) : string :=
  match split_last dot (sim_filename p) with
  | Some (before, _) => if Str.empty before then sim_filename p else before
  | None => sim_filename p
  end.

Definition sim_extension (p : string) : string :=
  match split_last dot (sim_filename p) with
  | Some (before, after) =>
      if Str.empty before then EmptyString else String dot after
  | None => EmptyString
  end.

Definition sim_path_join (a b : string) : string :=
  if String.prefix "/" b || Str.empty a then b
  else
    match split_last slash a with
    | Some (_, EmptyString) => a ++ b
    | _ => a ++ "/" ++ b
    end.

Definition sim_relative (p base : string) (_ : sim_world) : string :=
  if Str.empty base then p
  else if String.prefix (base ++ "/") p
       then Str.substr_from p (String.length base + 1)
       else p.

Definition sim_exists (p : string) (w : sim_world) : bool :=
  mem p (dirs w) || mem p (map fst (files w)).

(** [0] stands in for the permissions of a path that is not a file. *)
Definition sim_permissions (p : string) (w : sim_world) : Z :=
  match lookup p (files w) with
  | Some perms => perms
  | None => 0
  end.

Definition sim_entries (recursive : bool) (d : string) (w : sim_world)
    : list string * option string :=
  (filter
     (fun p =>
        if recursive then String.prefix (d ++ "/") p
        else String.eqb (sim_parent_path p) d)
     (map fst (files w)),
   None).

Definition sim_read (p : string) (w : sim_world) : load_result :=
  match lookup p (documents w) with
  | Some data => Loaded data
  | None => NotOpen
  end.

Definition sim_create_directories (p : string) (w : sim_world) : fs_result sim_world :=
  Done (mkWorld (p :: dirs w) (files w) (documents w) (failing w)).

Definition drop_file (p : string) (l : list (string * Z)) : list (string * Z) :=
  filter (fun e => negb (String.eqb (fst e) p)) l.

Definition sim_remove (p : string) (w : sim_world) : fs_result sim_world :=
  Done (mkWorld (dirs w) (drop_file p (files w)) (documents w) (failing w)).

Definition sim_rename (from to : string) (w : sim_world) : fs_result sim_world :=
  match lookup from (files w) with
  | Some perms =>
      Done (mkWorld (dirs w) ((to, perms) :: drop_file from (files w))
              (documents w) (failing w))
  | None => FsError "No such file or directory"
  end.

(** A file can be opened for writing in a directory that exists; it is
    created with mode 0644 (decimal 420). *)
Definition sim_open (p : string) (w : sim_world) : option sim_world :=
  if mem (sim_parent_path p) (dirs w)
  then Some (mkWorld (dirs w) ((p, 420) :: drop_file p (files w))
               (documents w) (failing w))
  else None.

Definition sim_system (command : string) (w : sim_world) : Z * sim_world :=
  (if existsb (Str.contains command) (failing w) then 1 else 0, w).

#[local] Instance sim_env : Env := {
  World := sim_world;
  fs_exists := sim_exists;
  fs_is_directory := fun p w => mem p (dirs w);
  fs_is_regular_file := fun p w => mem p (map fst (files w));
  fs_permissions := sim_permissions;
  fs_equivalent := fun a b _ => String.eqb a b;
  fs_relative := sim_relative;
  directory_entries := sim_entries;
  read_json_file := sim_read;
  fs_create_directories := sim_create_directories;
  fs_remove := sim_remove;
  fs_rename := sim_rename;
  ofstream_open := sim_open;
  system := sim_system;
  parent_path := sim_parent_path;
  stem := sim_stem;
  extension := sim_extension;
  path_join := sim_path_join;
  os := Posix
}.

(** A preset as [json::parse] gives it: encoder x265, constant quality 20
    (quality type 2), Matroska container. *)
Definition x265_preset : json :=
  JObject
    [("PresetList",
      JArray
        [JObject
           [("PresetName", JString "HQ");
            ("VideoEncoder", JString "x265");
            ("VideoQualityType", JUInt 2);
            ("VideoQualitySlider", JUInt 20);
            ("FileFormat", JString "av_mkv")]])].

(** A two-pass preset: average bitrate 1500 kbps, multipass on. *)
Definition two_pass_preset : json :=
  JObject
    [("PresetList",
      JArray
        [JObject
           [("VideoEncoder", JString "x264");
            ("VideoAvgBitrate", JUInt 1500);
            ("VideoPreset", JString "slow");
            ("VideoQualityType", JUInt 1);
            ("VideoMultiPass", JBool true);
            ("PictureWidth", JUInt 1280);
            ("PictureHeight", JUInt 720);
            ("FileFormat", JString "av_mp4")]])].

Definition two_pass_params : FFmpegParams :=
  mkFFmpegParams "libx264" "-c:a aac -b:a 0k" "" "-b:v 1500k" "mp4" "slow"
    "" "" "1280x720" true "".

Definition crf_params : FFmpegParams :=
  mkFFmpegParams "libx265" "-c:a aac -b:a 0k" "" "-crf 20.000000" "mkv" ""
    "" "" "0x0" false "HQ".

Definition start (w : sim_world) : state := mkState w [].

Definition options (json_file input_dir output_dir : string)
    (execute dry_run : bool) : CmdOptions :=
  mkCmdOptions json_file false execute dry_run false false false false
    input_dir output_dir ".noconvert" "".

End Sim.

(** ** Concrete runs *)

Module Scenario.

Import Sim.

(** A preset whose average bitrate is written as a numeric string. *)
Definition string_bitrate_preset : json :=
  JObject
    [("PresetList",
      JArray [JObject [("VideoAvgBitrate", JString "1500")]])].

(** The same bitrate as a native number. *)
Definition number_bitrate_preset : json :=
  JObject
    [("PresetList",
      JArray [JObject [("VideoAvgBitrate", JUInt 1500)]])].

(** One clip, a preset next to it, nothing converted yet. *)
Definition fresh_world (preset_data : json) : sim_world :=
  mkWorld ["media"] [("media/clip.mp4", 420)]
    [("media/p.json", preset_data)] [].

(** The output directory exists and pass 1 of every two-pass job fails. *)
Definition pass1_fails_world : sim_world :=
  mkWorld ["media"; "media/converted"] [("media/clip.mp4", 420)]
    [("media/p.json", two_pass_preset)] ["-pass 1"].

(** The target of the conversion exists and is read-only: mode 0444
    (decimal 292), no write bit (0222, decimal 146) set. *)
Definition read_only_output_world : sim_world :=
  mkWorld ["media"; "media/converted"]
    [("media/clip.mp4", 420); ("media/converted/clip.mkv", 292)]
    [("media/p.json", x265_preset)] [].

(** An input path with a double quote and a space in its name. *)
Definition quote_path : string :=
  "a" ++ String dquote " b.mp4".

Definition single_for (ffmpeg_params : FFmpegParams) (input_file : string)
    : list string :=
  build_ffmpeg_command input_file "out.mkv" ffmpeg_params
    100000000 100000000 false.

(** Execute mode on the media directory, output under "converted". *)
Definition execute_options : CmdOptions :=
  options "media/p.json" "media" "media/converted" true false.

(** Execute mode with an output directory that repeats "converted" three
    times. *)
Definition triple_options : CmdOptions :=
  options "media/p.json" "media" "x/converted/converted/converted" true false.

Definition no_counts : counters := mkCounters 0 0 0.

(** Constant quality with the multipass flag set all the same. *)
Definition crf_multipass_params : FFmpegParams :=
  mkFFmpegParams "libx265" "-c:a copy" "" "-crf 20.000000" "mkv" "" "auto"
    "auto" "1280x720" true "HQ".

Definition slow_params : FFmpegParams :=
  mkFFmpegParams "libx265" "-c:a copy" "-ac 2" "-crf 20.000000" "mkv" "slow"
    "main" "30" "1280x720" false "HQ".

End Scenario.


(** * Properties *)

(** ** Strings *)

Section StringFacts.

Lemma append_empty_r (s : string) : s ++ "" = s.
Proof. induction s as [|c s IH]; simpl; [reflexivity | now rewrite IH]. Qed.

Lemma append_assoc (a b c : string) : (a ++ b) ++ c = a ++ b ++ c.
Proof. induction a as [|x a IH]; simpl; [reflexivity | now rewrite IH]. Qed.

Lemma prefix_occurs (p s : string) :
  String.prefix p s = true -> exists post, s = p ++ post.
Proof.
  revert s; induction p as [|c p IH]; intros s H.
  - exists s; reflexivity.
  - destruct s as [|d s]; simpl in H; [discriminate|].
    destruct (ascii_dec c d) as [->|]; [|discriminate].
    destruct (IH s H) as [post ->]. exists post; reflexivity.
Qed.

Lemma prefix_append (p post : string) : String.prefix p (p ++ post) = true.
Proof.
  induction p as [|c p IH]; simpl.
  - now destruct post.
  - destruct (ascii_dec c c); [exact IH | contradiction].
Qed.

(** [find] reports a position at which the pattern does occur. *)
Lemma find_some_occurs (s pat : string) (n : nat) :
  Str.find s pat = Some n ->
  exists pre post, s = pre ++ pat ++ post /\ String.length pre = n.
Proof.
  unfold Str.find. revert n; induction s as [|c s IH]; intros n H.
  - simpl in H. destruct pat; [|discriminate].
    injection H as <-. exists "", ""; split; reflexivity.
  - cbn [String.index] in H.
    destruct (String.prefix pat (String c s)) eqn:P.
    + injection H as <-. destruct (prefix_occurs _ _ P) as [post E].
      exists "", post; split; [exact E | reflexivity].
    + destruct (String.index 0 pat s) as [m|] eqn:I; [|discriminate].
      injection H as <-. destruct (IH m eq_refl) as (pre & post & -> & L).
      exists (String c pre), post; split; [reflexivity | simpl; now rewrite L].
Qed.

(** [find] misses no occurrence. *)
Lemma occurs_find (pre pat post : string) :
  exists n, Str.find (pre ++ pat ++ post) pat = Some n
            /\ (n <= String.length pre)%nat.
Proof.
  unfold Str.find. induction pre as [|c pre IH].
  - exists 0%nat; split; [|apply Nat.le_refl]. simpl.
    destruct (pat ++ post) as [|d r] eqn:E.
    + destruct pat; [reflexivity | discriminate].
    + cbn [String.index]. rewrite <- E, prefix_append. reflexivity.
  - destruct IH as (n & I & L). cbn -[String.prefix].
    destruct (String.prefix pat (String c (pre ++ pat ++ post))).
    + exists 0%nat; split; [reflexivity | apply Nat.le_0_l].
    + rewrite I. exists (S n); split; [reflexivity | simpl; lia].
Qed.

(** [contains] decides whether the pattern occurs. *)
Lemma contains_iff_occurs (s pat : string) :
  Str.contains s pat = true <-> exists pre post, s = pre ++ pat ++ post.
Proof.
  unfold Str.contains; split.
  - destruct (Str.find s pat) as [n|] eqn:F; [|discriminate].
    intros _. destruct (find_some_occurs _ _ _ F) as (pre & post & E & _).
    now exists pre, post.
  - intros (pre & post & ->).
    destruct (occurs_find pre pat post) as (n & -> & _). reflexivity.
Qed.

Lemma length_append (a b : string) :
  String.length (a ++ b) = (String.length a + String.length b)%nat.
Proof. induction a as [|c a IH]; simpl; [reflexivity | now rewrite IH]. Qed.

Lemma substring_whole (s : string) : String.substring 0 (String.length s) s = s.
Proof. induction s as [|c s IH]; simpl; [reflexivity | now rewrite IH]. Qed.

Lemma substring_prefix_app (pre rest : string) :
  String.substring 0 (String.length pre) (pre ++ rest) = pre.
Proof.
  induction pre as [|c pre IH]; simpl.
  - now destruct rest.
  - now rewrite IH.
Qed.

Lemma substr_from_app (pre rest : string) :
  Str.substr_from (pre ++ rest) (String.length pre) = rest.
Proof.
  unfold Str.substr_from. rewrite length_append.
  replace (String.length pre + String.length rest - String.length pre)%nat
    with (String.length rest) by lia.
  induction pre as [|c pre IH]; simpl; [apply substring_whole | exact IH].
Qed.

(** Two ways to cut one string at the same position give the same parts. *)
Lemma append_same_length (a b c d : string) :
  a ++ b = c ++ d -> String.length a = String.length c -> a = c /\ b = d.
Proof.
  revert c; induction a as [|x a IH]; intros [|y c] E L;
    simpl in *; try discriminate.
  - now split.
  - injection E as -> E. injection L as L.
    destruct (IH c E L) as [-> ->]. now split.
Qed.

End StringFacts.

(** ** [split_string] splits on the delimiter *)

Section SplitFacts.

Variable delimiter : ascii.

Lemma fields_getline (s : string) :
  exists fs,
    fields delimiter s = fst (getline_from s delimiter) :: fs
    /\ filter (fun f => negb (Str.empty f)) fs
       = split_on delimiter (snd (getline_from s delimiter)).
Proof.
  induction s as [|c s IH].
  - exists []; split; reflexivity.
  - simpl. destruct (Ascii.eqb c delimiter).
    + exists (fields delimiter s); split; reflexivity.
    + destruct IH as (fs & E & F).
      destruct (getline_from s delimiter) as [token after]; simpl in *.
      rewrite E. exists fs; split; [reflexivity | exact F].
Qed.

Lemma getline_from_shorter (s : string) :
  (String.length (snd (getline_from s delimiter)) <= Nat.pred (String.length s))%nat.
Proof.
  induction s as [|c s IH]; simpl; [apply Nat.le_refl|].
  destruct (Ascii.eqb c delimiter); simpl; [apply Nat.le_refl|].
  destruct (getline_from s delimiter) as [token after]; simpl in *. lia.
Qed.

(** With more fuel than characters the loop ends by itself, with the
    non-empty fields appended to what it started from. *)
Lemma split_loop_split_on (fuel : nat) :
  forall (s : string) (tokens : list string),
    (String.length s < fuel)%nat ->
    split_loop fuel s delimiter tokens = (tokens ++ split_on delimiter s)%list.
Proof.
  induction fuel as [|fuel IH]; intros s tokens L; [lia|].
  destruct s as [|c s].
  - simpl. now rewrite app_nil_r.
  - cbn [split_loop getline].
    pose proof (getline_from_shorter (String c s)) as Sh.
    destruct (fields_getline (String c s)) as (fs & E & F).
    unfold split_on at 1. rewrite E.
    destruct (getline_from (String c s) delimiter) as [token after].
    cbn [fst snd] in *. rewrite IH by (simpl in *; lia).
    cbn [filter]. rewrite F.
    destruct (Str.empty token); simpl; [reflexivity|].
    now rewrite <- app_assoc.
Qed.

Lemma split_string_split_on (s : string) :
  split_string s delimiter = split_on delimiter s.
Proof. unfold split_string. now rewrite split_loop_split_on by lia. Qed.

(** No fuel beyond the length of the input is ever needed. *)
Lemma split_loop_fuel_irrelevant (fuel : nat) (s : string) :
  (String.length s < fuel)%nat ->
  split_loop fuel s delimiter [] = split_string s delimiter.
Proof.
  intros L. now rewrite split_loop_split_on, split_string_split_on.
Qed.

End SplitFacts.

(** ** The command builder *)

Section BuilderFacts.

Variables (input_file : string) (ffmpeg_params : FFmpegParams).
Variables (analyze_duration probe_size : Z) (verbose : bool).

Let single (output_file : string) : list string :=
  build_ffmpeg_command input_file output_file ffmpeg_params
    analyze_duration probe_size verbose.

(** The arguments in front of the quality fragment. *)
Let head : list string :=
  ["ffmpeg"; "-analyzeduration"; Str.to_string_int analyze_duration;
   "-probesize"; Str.to_string_int probe_size; "-i"; input_file;
   "-c:v"; vcodec ffmpeg_params].

(** The quiet-mode flags. *)
Let quiet : list string :=
  if verbose then [] else ["-v"; "error"; "-stats"].

(** The audio channel fragment, split when there is one. *)
Let channels : list string :=
  if Str.empty (audio_channels ffmpeg_params) then []
  else split_on space (audio_channels ffmpeg_params).

Ltac flatten_cmd :=
  unfold build_ffmpeg_command, push_back, insert_end;
  rewrite ?split_string_split_on;
  destruct (String.eqb (framerate ffmpeg_params) "auto");
  destruct (Str.empty (framerate ffmpeg_params));
  destruct (Str.empty (audio_channels ffmpeg_params));
  destruct (String.eqb (profile ffmpeg_params) "auto");
  destruct (Str.empty (profile ffmpeg_params));
  destruct verbose;
  cbn [negb andb orb app];
  repeat rewrite <- app_assoc; cbn [app].

(** The sequence of [push_back] and [insert] calls, flattened. *)
Lemma build_ffmpeg_command_flat (output_file : string) :
  build_ffmpeg_command input_file output_file ffmpeg_params
    analyze_duration probe_size verbose
  = (["ffmpeg";
      "-analyzeduration"; Str.to_string_int analyze_duration;
      "-probesize"; Str.to_string_int probe_size;
      "-i"; input_file;
      "-c:v"; vcodec ffmpeg_params]
     ++ split_on space (quality ffmpeg_params)
     ++ ["-preset"; preset ffmpeg_params]
     ++ (if Str.empty (framerate ffmpeg_params)
            || String.eqb (framerate ffmpeg_params) "auto"
         then [] else ["-r"; framerate ffmpeg_params])
     ++ ["-s"; resolution ffmpeg_params]
     ++ split_on space (acodec ffmpeg_params)
     ++ (if Str.empty (audio_channels ffmpeg_params) then []
         else split_on space (audio_channels ffmpeg_params))
     ++ (if Str.empty (profile ffmpeg_params)
            || String.eqb (profile ffmpeg_params) "auto"
         then [] else ["-profile:v"; profile ffmpeg_params])
     ++ (if verbose then [] else ["-v"; "error"; "-stats"])
     ++ ["-map"; "0"; output_file])%list.
Proof. flatten_cmd; reflexivity. Qed.

(** C3: [build_ffmpeg_command] returns the program name, the analysis
    flags, the input, the codec, the quality fragment split on spaces, the
    speed preset, the framerate unless empty or "auto", the resolution, the
    audio codec fragment split, the audio channel fragment split when
    non-empty, the profile unless empty or "auto", the quiet flags unless
    verbose, the stream map and the output path, in this order. *)
Theorem build_ffmpeg_command_argument_order (output_file : string) :
  build_ffmpeg_command input_file output_file ffmpeg_params
    analyze_duration probe_size verbose
  = (["ffmpeg";
      "-analyzeduration"; Str.to_string_int analyze_duration;
      "-probesize"; Str.to_string_int probe_size;
      "-i"; input_file;
      "-c:v"; vcodec ffmpeg_params]
     ++ split_on space (quality ffmpeg_params)
     ++ ["-preset"; preset ffmpeg_params]
     ++ (if Str.empty (framerate ffmpeg_params)
            || String.eqb (framerate ffmpeg_params) "auto"
         then [] else ["-r"; framerate ffmpeg_params])
     ++ ["-s"; resolution ffmpeg_params]
     ++ split_on space (acodec ffmpeg_params)
     ++ (if Str.empty (audio_channels ffmpeg_params) then []
         else split_on space (audio_channels ffmpeg_params))
     ++ (if Str.empty (profile ffmpeg_params)
            || String.eqb (profile ffmpeg_params) "auto"
         then [] else ["-profile:v"; profile ffmpeg_params])
     ++ (if verbose then [] else ["-v"; "error"; "-stats"])
     ++ ["-map"; "0"; output_file])%list.
Proof. exact (build_ffmpeg_command_flat output_file). Qed.

(** The output path is the last argument, and nothing else depends on it. *)
Lemma build_ffmpeg_command_output_last :
  exists body, forall output_file, single output_file = (body ++ [output_file])%list.
Proof.
  eexists; intros output_file; unfold single.
  unfold build_ffmpeg_command; cbv zeta.
  unfold push_back at 1. reflexivity.
Qed.

Lemma equal_or_auto (s : string) :
  s = "" \/ s = "auto" -> Str.empty s || String.eqb s "auto" = true.
Proof. intros [->| ->]; reflexivity. Qed.

(** C10: "-preset" and the speed-preset value are always emitted right
    after the quality fragment, whatever the value (an empty value gives an
    empty argument); an empty or "auto" framerate leaves nothing between the
    preset and "-s", an empty or "auto" profile leaves nothing between the
    audio arguments and the quiet flags. *)
Theorem preset_flag_always_emitted (output_file : string) :
  (exists after,
      single output_file
      = (head ++ split_on space (quality ffmpeg_params)
           ++ "-preset" :: preset ffmpeg_params :: after)%list)
  /\ (framerate ffmpeg_params = "" \/ framerate ffmpeg_params = "auto" ->
      exists after,
        single output_file
        = (head ++ split_on space (quality ffmpeg_params)
             ++ "-preset" :: preset ffmpeg_params
                  :: "-s" :: resolution ffmpeg_params :: after)%list)
  /\ (profile ffmpeg_params = "" \/ profile ffmpeg_params = "auto" ->
      exists before,
        single output_file
        = (before ++ "-s" :: resolution ffmpeg_params
             :: split_on space (acodec ffmpeg_params)
             ++ channels ++ quiet ++ ["-map"; "0"; output_file])%list).
Proof.
  unfold single, head, quiet, channels.
  rewrite build_ffmpeg_command_flat. repeat split.
  - eexists. cbn [app]. reflexivity.
  - intros F. rewrite (equal_or_auto _ F). eexists. cbn [app]. reflexivity.
  - intros P. rewrite (equal_or_auto _ P).
    exists (["ffmpeg";
             "-analyzeduration"; Str.to_string_int analyze_duration;
             "-probesize"; Str.to_string_int probe_size;
             "-i"; input_file;
             "-c:v"; vcodec ffmpeg_params]
            ++ split_on space (quality ffmpeg_params)
            ++ ["-preset"; preset ffmpeg_params]
            ++ (if Str.empty (framerate ffmpeg_params)
                   || String.eqb (framerate ffmpeg_params) "auto"
                then [] else ["-r"; framerate ffmpeg_params]))%list.
    repeat rewrite <- app_assoc. cbn [app]. reflexivity.
Qed.

(** C4: [build_multipass_commands] returns two invocations.  The first is
    the single-pass command for the null device without its last argument,
    followed by "-pass" "1" "-f" "null" and the null device; the second is
    the single-pass command for the real output followed by "-pass" "2".
    The argument removed from the first is the null device, and up to their
    output paths both passes start from the same command. *)
Theorem build_multipass_commands_two_passes (p : platform) (output_file : string) :
  build_multipass_commands p input_file output_file ffmpeg_params
    analyze_duration probe_size verbose
  = [ (removelast (single (get_null_device p))
         ++ ["-pass"; "1"; "-f"; "null"; get_null_device p])%list;
      (single output_file ++ ["-pass"; "2"])%list ]
  /\ single (get_null_device p)
     = (removelast (single (get_null_device p)) ++ [get_null_device p])%list
  /\ removelast (single (get_null_device p)) = removelast (single output_file).
Proof.
  destruct build_ffmpeg_command_output_last as [body E].
  repeat split.
  - unfold build_multipass_commands, push_back, pop_back; fold single.
    cbn [app]. repeat rewrite <- app_assoc. reflexivity.
  - rewrite !E, removelast_last. reflexivity.
  - rewrite !E, !removelast_last. reflexivity.
Qed.

(** What [process_file] prints is the rendering of [build_commands]. *)
Lemma ffmpeg_cmd_str_build_commands (p : platform) (output_file : string) :
  ffmpeg_cmd_str p input_file output_file ffmpeg_params
    analyze_duration probe_size verbose
  = join_string
      (map render
         (build_commands p input_file output_file ffmpeg_params
            analyze_duration probe_size verbose)) " && ".
Proof.
  unfold ffmpeg_cmd_str, build_commands.
  destruct (is_multipass ffmpeg_params); reflexivity.
Qed.



End BuilderFacts.

Lemma preset_flag_always_emitted_witness :
  (framerate Scenario.crf_multipass_params = ""
   \/ framerate Scenario.crf_multipass_params = "auto")
  /\ exists after,
       build_ffmpeg_command "clip.mp4" "out.mkv" Scenario.crf_multipass_params
         100000000 100000000 false
       = (["ffmpeg"; "-analyzeduration"; "100000000"; "-probesize";
           "100000000"; "-i"; "clip.mp4"; "-c:v"; "libx265"]
          ++ ["-crf"; "20.000000"]
          ++ "-preset" :: EmptyString :: "-s" :: "1280x720" :: after)%list.
Proof.
  split; [right; reflexivity|].
  apply (proj1 (proj2 (preset_flag_always_emitted "clip.mp4"
                         Scenario.crf_multipass_params 100000000 100000000
                         false "out.mkv"))).
  right; reflexivity.
Defined.


(** ** Extraction and translation *)

Section ExtractFacts.

Lemma bind_Ok {A B : Type} (c : outcome A) (k : A -> outcome B) (b : B) :
  bind c k = Ok b -> exists a, c = Ok a /\ k a = Ok b.
Proof. destruct c; simpl; intros H; try discriminate. now exists a. Qed.

Ltac invert_binds H :=
  repeat (apply bind_Ok in H;
          let a := fresh "v" in
          let E := fresh "E" in
          destruct H as (a & E & H)).

(** C8, at a preset whose bitrate is the string "1500": the extraction
    throws type error 302, where the same bitrate as a number extracts to
    "1500". *)
Theorem string_bitrate_throws :
  extract_preset_settings Scenario.string_bitrate_preset
  = Throws (type_error 302)
  /\ (exists settings,
        extract_preset_settings Scenario.number_bitrate_preset = Ok settings
        /\ video_bitrate settings = "1500").
Proof. split; [reflexivity | eexists; split; reflexivity]. Qed.

(** Every numeric string in one of the four integer fields throws. *)
Lemma int_field_string_throws (members : list (string * json)) (key text : string) :
  Json.find members key = Some (JString text) ->
  int_field (JObject members) key = Throws (type_error 302).
Proof. intros F. unfold int_field. simpl. rewrite F. reflexivity. Qed.

Lemma wrap_int_in_range (z : Z) : in_int_range z = true -> wrap_int z = z.
Proof.
  unfold in_int_range, wrap_int. rewrite andb_true_iff.
  intros [L U]. apply Z.leb_le in L. apply Z.ltb_lt in U.
  rewrite Z.mod_small; lia.
Qed.

(** A native number within the range of [int] is extracted to its decimal
    form. *)
Lemma int_field_number (members : list (string * json)) (key : string) (z : Z) :
  Json.find members key = Some (JInt z)
  \/ Json.find members key = Some (JUInt z) ->
  in_int_range z = true ->
  int_field (JObject members) key = Ok (Str.to_string_int z).
Proof.
  intros F R. unfold int_field. simpl.
  destruct F as [F | F]; rewrite F; simpl; now rewrite wrap_int_in_range.
Qed.

(** An absent numeric field defaults to "0". *)
Lemma int_field_absent (members : list (string * json)) (key : string) :
  Json.find members key = None ->
  int_field (JObject members) key = Ok "0".
Proof. intros F. unfold int_field. simpl. now rewrite F. Qed.

(** The document that holds the four fields of the claim and nothing else
    is extracted without an exception, whichever way the two numbers are
    written. *)
Lemma x265_crf_minimal_document (quality_type slider : json) :
  quality_type = JString "2" \/ quality_type = JInt 2 \/ quality_type = JUInt 2 ->
  slider = JInt 20 \/ slider = JUInt 20 \/ slider = JFloat (double_of_Z 20) ->
  extract_preset_settings
    (JObject
       [("PresetList",
         JArray
           [JObject
              [("VideoEncoder", JString "x265");
               ("VideoQualityType", quality_type);
               ("VideoQualitySlider", slider);
               ("FileFormat", JString "av_mkv")]])])
  = Ok (mkSettings "" "x265" "0" "" "" "" "20.000000" "2" false "0" "0"
          "" "0" "" "av_mkv").
Proof.
  intros [-> | [-> | ->]] [-> | [-> | ->]]; vm_compute; reflexivity.
Qed.

(** C1, at the preset of the claim: the argument after "-crf" is
    "20.000000"; a bare "20" is no argument of the command. *)
Lemma x265_crf_20_not_an_argument :
  exists settings,
    extract_preset_settings Sim.x265_preset = Ok settings
    /\ let cmd :=
         build_ffmpeg_command "clip.mp4" "converted/clip.mkv"
           (convert_to_ffmpeg_params settings) 100000000 100000000 false in
       ~ In "20" cmd
       /\ ~ consecutive_args ["-c:v"; "libx265"; "-crf"; "20"] cmd.
Proof.
  exists (mkSettings "HQ" "x265" "0" "" "" "" "20.000000" "2"
            false "0" "0" "" "0" "" "av_mkv").
  split; [vm_compute; reflexivity|]. cbv zeta.
  assert (N : ~ In "20"
                (build_ffmpeg_command "clip.mp4" "converted/clip.mkv"
                   (convert_to_ffmpeg_params
                      (mkSettings "HQ" "x265" "0" "" "" "" "20.000000" "2"
                         false "0" "0" "" "0" "" "av_mkv"))
                   100000000 100000000 false)).
  { vm_compute. intros H.
    repeat (destruct H as [H|H]; [discriminate H|]). exact H. }
  split; [exact N|].
  intros (before & after & E). apply N. rewrite E.
  apply in_or_app; right. simpl. auto.
Qed.

(** As plain text the rendered command does begin its quality argument
    with "-crf 20": the digits that follow are the six decimals. *)
Example x265_crf_rendered_text :
  let cmd :=
    build_ffmpeg_command "clip.mp4" "converted/clip.mkv" Sim.crf_params
      100000000 100000000 false in
  Str.contains (render cmd) "-c:v libx265 -crf 20" = true
  /\ Str.contains (render cmd) "-c:v libx265 -crf 20 " = false
  /\ Str.contains (render cmd) "-c:v libx265 -crf 20.000000 " = true.
Proof. vm_compute. repeat split. Qed.

(** C1 as amended: a preset with encoder "x265", quality type 2, quality
    slider 20 and container "av_mkv" translates to codec "libx265",
    quality "-crf 20.000000" and format "mkv"; the command is built single
    pass and holds "-c:v" "libx265" "-crf" "20.000000" in a row. *)
Theorem x265_crf_pipeline (preset_data : json)
    (top members : list (string * json)) (others : list json)
    (quality_type slider : json) (settings : Settings) :
  preset_data = JObject top ->
  Json.find top "PresetList" = Some (JArray (JObject members :: others)) ->
  Json.find members "VideoEncoder" = Some (JString "x265") ->
  Json.find members "VideoQualityType" = Some quality_type ->
  quality_type = JString "2" \/ quality_type = JInt 2 \/ quality_type = JUInt 2 ->
  Json.find members "VideoQualitySlider" = Some slider ->
  slider = JInt 20 \/ slider = JUInt 20 \/ slider = JFloat (double_of_Z 20) ->
  Json.find members "FileFormat" = Some (JString "av_mkv") ->
  extract_preset_settings preset_data = Ok settings ->
  let params := convert_to_ffmpeg_params settings in
  vcodec params = "libx265"
  /\ quality params = "-crf 20.000000"
  /\ format params = "mkv"
  /\ is_multipass params = false
  /\ forall (p : platform) (input_file output_file : string)
            (analyze_duration probe_size : Z) (verbose : bool),
       let cmd :=
         build_ffmpeg_command input_file output_file params
           analyze_duration probe_size verbose in
       consecutive_args ["-c:v"; "libx265"; "-crf"; "20.000000"] cmd
       /\ ffmpeg_cmd_str p input_file output_file params
            analyze_duration probe_size verbose = render cmd.
Proof.
  intros -> HP HE HT QT HS SL HF H. cbv zeta.
  unfold extract_preset_settings in H.
  unfold Json.value at 1 in H. rewrite HP in H. cbn [bind Json.subscript_idx nth] in H.
  invert_binds H. injection H as <-.
  match goal with
  | E : Json.value _ _ "VideoEncoder" _ = Ok _ |- _ =>
      unfold Json.value in E; rewrite HE in E; injection E as <-
  end.
  match goal with
  | E : Json.value _ _ "FileFormat" _ = Ok _ |- _ =>
      unfold Json.value in E; rewrite HF in E; injection E as <-
  end.
  match goal with
  | E : double_field _ "VideoQualitySlider" = Ok _ |- _ =>
      unfold double_field in E; simpl in E; rewrite HS in E;
      destruct SL as [-> | [-> | ->]]; simpl in E; injection E as <-
  end.
  all: match goal with
  | E : string_or_int_field _ "VideoQualityType" = Ok _ |- _ =>
      unfold string_or_int_field in E; simpl in E; rewrite HT in E;
      destruct QT as [-> | [-> | ->]]; simpl in E; injection E as <-
  end.
  all: match goal with
       | |- context [convert_to_ffmpeg_params ?s] => set (params := s)
       end.
  all: assert (Q : quality (convert_to_ffmpeg_params params) = "-crf 20.000000")
         by (subst params; vm_compute; reflexivity).
  all: assert (I : is_multipass (convert_to_ffmpeg_params params) = false)
         by (unfold is_multipass; rewrite Q; apply andb_false_r).
  all: assert (V : vcodec (convert_to_ffmpeg_params params) = "libx265")
         by (subst params; reflexivity).
  all: assert (F : format (convert_to_ffmpeg_params params) = "mkv")
         by (subst params; reflexivity).
  all: clearbody params.
  all: repeat split; try assumption.
  all: try (rewrite build_ffmpeg_command_flat, Q, V;
            exists ["ffmpeg"; "-analyzeduration";
                    Str.to_string_int analyze_duration;
                    "-probesize"; Str.to_string_int probe_size;
                    "-i"; input_file];
            eexists; cbn [app]; do 7 f_equal;
            change (split_on space "-crf 20.000000") with ["-crf"; "20.000000"];
            reflexivity).
  all: unfold ffmpeg_cmd_str; rewrite I; reflexivity.
Qed.

Lemma x265_crf_pipeline_witness :
  exists settings,
    extract_preset_settings Sim.x265_preset = Ok settings
    /\ quality (convert_to_ffmpeg_params settings) = "-crf 20.000000"
    /\ format (convert_to_ffmpeg_params settings) = "mkv".
Proof.
  eexists. split; [reflexivity|].
  pose proof (x265_crf_pipeline Sim.x265_preset _ _ _ (JUInt 2) (JUInt 20) _
                eq_refl eq_refl eq_refl eq_refl
                (or_intror (or_intror eq_refl)) eq_refl
                (or_intror (or_introl eq_refl)) eq_refl eq_refl) as H.
  cbv zeta in H. destruct H as (_ & Q & F & _). split; [exact Q | exact F].
Defined.

End ExtractFacts.

(** ** Rendering a command and reading it back *)

Section RoundTrip.

Lemma find_char_cons (a : ascii) (s : string) (c : ascii) :
  Str.find_char (String a s) c
  = if Ascii.eqb a c then Some 0%nat else option_map S (Str.find_char s c).
Proof.
  unfold Str.find_char, Str.find. cbn [String.index String.prefix].
  destruct (ascii_dec c a) as [->|N].
  - rewrite Ascii.eqb_refl. now destruct s.
  - destruct (Ascii.eqb a c) eqn:E.
    + apply Ascii.eqb_eq in E. now subst.
    + now destruct (String.index 0 (String c "") s).
Qed.

Lemma find_char_absent (a : ascii) (s : string) (c : ascii) :
  Str.find_char (String a s) c = None ->
  Ascii.eqb a c = false /\ Str.find_char s c = None.
Proof.
  rewrite find_char_cons. destruct (Ascii.eqb a c); [discriminate|].
  destruct (Str.find_char s c); [discriminate | now split].
Qed.

Lemma plain_arg_chars (a : string) :
  plain_arg a = true -> a <> "" /\ Str.find_char a dquote = None.
Proof.
  unfold plain_arg, Str.contains, Str.find_char.
  rewrite andb_true_iff, !negb_true_iff. intros [E Q]. split.
  - now destruct a.
  - now destruct (Str.find a (String dquote "")).
Qed.

(** A run of ordinary characters outside quotes goes to the token. *)
Lemma scan_plain (a : string) :
  Str.find_char a space = None -> Str.find_char a dquote = None ->
  forall (rest : string) (started : bool) (token : list ascii),
    tokenize_from (a ++ rest) false started token
    = tokenize_from rest false (started || negb (Str.empty a))
        (rev (list_ascii_of_string a) ++ token)%list.
Proof.
  induction a as [|c a IH]; intros Sp Dq rest started token.
  - simpl. now rewrite orb_false_r.
  - apply find_char_absent in Sp as [Sc Sp].
    apply find_char_absent in Dq as [Dc Dq].
    cbn [append tokenize_from]. rewrite Sc, Dc, (IH Sp Dq).
    cbn [Str.empty negb list_ascii_of_string rev].
    rewrite !orb_true_r, <- app_assoc. reflexivity.
Qed.

(** Inside quotes everything but a quote goes to the token. *)
Lemma scan_quoted (a : string) :
  Str.find_char a dquote = None ->
  forall (rest : string) (token : list ascii),
    tokenize_from (a ++ rest) true true token
    = tokenize_from rest true true (rev (list_ascii_of_string a) ++ token)%list.
Proof.
  induction a as [|c a IH]; intros Dq rest token; [reflexivity|].
  apply find_char_absent in Dq as [Dc Dq].
  cbn [append tokenize_from]. rewrite Dc, (IH Dq).
  cbn [list_ascii_of_string rev]. rewrite <- app_assoc. reflexivity.
Qed.

(** The rendering of one argument is read back as that argument's
    characters, with the token still open. *)
Lemma tokenize_escaped (a : string) :
  plain_arg a = true ->
  forall rest : string,
    tokenize_from (escape_string a ++ rest) false false []
    = tokenize_from rest false true (rev (list_ascii_of_string a)).
Proof.
  intros P rest. destruct (plain_arg_chars a P) as [NE Dq].
  unfold escape_string. destruct (Str.find_char a space) eqn:Sp.
  - change (String dquote a ++ String dquote "")
      with (String dquote (a ++ String dquote "")).
    cbn [append]. rewrite append_assoc.
    cbn [tokenize_from]. rewrite Ascii.eqb_refl.
    rewrite (scan_quoted a Dq). cbn [append tokenize_from].
    rewrite Ascii.eqb_refl, app_nil_r. reflexivity.
  - rewrite (scan_plain a Sp Dq), app_nil_r.
    destruct a; [contradiction | reflexivity].
Qed.

Lemma token_of_chars (a : string) :
  string_of_list_ascii (rev (rev (list_ascii_of_string a))) = a.
Proof. rewrite rev_involutive. apply string_of_list_ascii_of_string. Qed.

(** A command of plain arguments survives rendering and tokenizing. *)
Lemma render_tokenize (args : list string) :
  forallb plain_arg args = true -> tokenize (render args) = args.
Proof.
  unfold tokenize, render.
  induction args as [|a rest IH]; intros P; [reflexivity|].
  cbn [forallb] in P. apply andb_true_iff in P as [Pa Pr].
  destruct rest as [|b rest].
  - cbn [map join_string]. rewrite <- (append_empty_r (escape_string a)).
    rewrite (tokenize_escaped a Pa). cbn [tokenize_from].
    now rewrite token_of_chars.
  - change (join_string (map escape_string (a :: b :: rest)) " ")
      with (escape_string a
              ++ String space (join_string (map escape_string (b :: rest)) " ")).
    rewrite (tokenize_escaped a Pa).
    cbn [tokenize_from]. change (Ascii.eqb space dquote) with false.
    rewrite Ascii.eqb_refl. cbv iota.
    rewrite (IH Pr), token_of_chars. reflexivity.
Qed.

(** C6, as stated, fails: a double quote in the input path breaks the
    round trip, and so does the empty speed preset, whose empty argument is
    rendered as nothing between two spaces. *)
Lemma quoted_path_breaks_roundtrip :
  tokenize (render (Scenario.single_for Scenario.slow_params Scenario.quote_path))
    <> Scenario.single_for Scenario.slow_params Scenario.quote_path
  /\ preset Sim.crf_params = EmptyString
  /\ tokenize (render (Scenario.single_for Sim.crf_params "clip.mp4"))
       <> Scenario.single_for Sim.crf_params "clip.mp4".
Proof. repeat split; vm_compute; discriminate. Qed.

(** C6 as amended: when no argument of the built command is empty and none
    holds a double quote, tokenizing the rendered command gives the
    argument list back. *)
Theorem render_tokenize_roundtrip (input_file output_file : string)
    (ffmpeg_params : FFmpegParams) (analyze_duration probe_size : Z)
    (verbose : bool) :
  let cmd :=
    build_ffmpeg_command input_file output_file ffmpeg_params
      analyze_duration probe_size verbose in
  forallb plain_arg cmd = true ->
  tokenize (render cmd) = cmd.
Proof. cbv zeta. apply render_tokenize. Qed.

Lemma render_tokenize_roundtrip_witness :
  let cmd :=
    build_ffmpeg_command "my clip.mp4" "out dir/my clip.mkv"
      Scenario.slow_params 100000000 100000000 false in
  forallb plain_arg cmd = true /\ tokenize (render cmd) = cmd.
Proof.
  cbv zeta. split; [vm_compute; reflexivity|].
  apply (render_tokenize_roundtrip "my clip.mp4" "out dir/my clip.mkv"
           Scenario.slow_params 100000000 100000000 false).
  vm_compute; reflexivity.
Defined.

End RoundTrip.

(** ** The orchestrator *)

Section OrchestratorFacts.
Context {env : Env}.

Lemma dispatched_app (a b : list event) :
  dispatched (a ++ b) = (dispatched a ++ dispatched b)%list.
Proof.
  induction a as [|e a IH]; [reflexivity|].
  destruct e; simpl; rewrite IH; reflexivity.
Qed.

Lemma build_multipass_commands_pair i o p ad ps v :
  exists pass1 pass2, build_multipass_commands os i o p ad ps v = [pass1; pass2].
Proof. eexists; eexists. reflexivity. Qed.

Ltac unfold_io :=
  cbv [and_then ask ret print log set_world];
  cbv beta iota zeta; cbn [world trace fst snd].

Ltac case_step :=
  match goal with
  | |- context [match ?x with Done _ => _ | FsError _ => _ end] =>
      destruct x eqn:?
  | |- context [match ?x with Some _ => _ | None => _ end] =>
      destruct x eqn:?
  | |- context [if ?b then _ else _] => destruct b eqn:?
  end;
  cbv beta iota zeta; cbn [world trace fst snd].

(** Closes a goal that asks for the new part of an explicit trace. *)
Ltac close_trace :=
  do 3 eexists; split;
  [ repeat rewrite <- app_assoc; reflexivity
  | repeat rewrite dispatched_app; cbn [dispatched app];
    repeat match goal with
           | H : dispatched _ = _ |- _ => rewrite H
           end;
    cbn [app]; try reflexivity ].

Lemma check_file_access_trace (file_path : string) (st : state) :
  exists ok w new,
    check_file_access file_path st = (ok, mkState w (trace st ++ new))
    /\ dispatched new = [].
Proof.
  destruct st as [w t]. unfold check_file_access. unfold_io.
  repeat case_step; close_trace.
Qed.

Lemma execute_command_trace (cmd : list string) (verbose : bool) (st : state) :
  exists status w new,
    execute_command cmd verbose st = (status, mkState w (trace st ++ new))
    /\ dispatched new = [(join_string cmd " ", status)].
Proof.
  destruct st as [w t]. unfold execute_command. unfold_io.
  destruct verbose; cbv beta iota zeta; cbn [world trace fst snd];
    destruct (system (join_string cmd " ") w) as [status w'];
    cbn [fst snd]; close_trace.
Qed.

Lemma get_file_info_trace (file_path : string) (st : state) :
  exists status w new,
    get_file_info file_path st = (tt, mkState w (trace st ++ new))
    /\ dispatched new = [(probe_command file_path, status)].
Proof.
  destruct st as [w t]. unfold get_file_info, probe_command. unfold_io.
  destruct (system _ w) as [status w']; cbn [fst snd]. close_trace.
Qed.

Lemma rename_to_m4v_trace (file_path : string) (dry_run : bool) (st : state) :
  exists ok w new,
    rename_to_m4v file_path dry_run st = (ok, mkState w (trace st ++ new))
    /\ dispatched new = [].
Proof.
  destruct st as [w t]. unfold rename_to_m4v. unfold_io.
  repeat case_step; close_trace.
Qed.

Ltac simp := cbv beta iota zeta; cbn [world trace fst snd negb andb].

(** Gives the new part of an explicit trace and computes what it
    dispatched. *)
Ltac leaf :=
  do 3 eexists;
  split; [reflexivity|];
  split; [repeat rewrite <- app_assoc; reflexivity|];
  unfold two_pass_outcome;
  repeat rewrite dispatched_app; cbn [dispatched app];
  repeat match goal with
         | H : dispatched _ = _ |- _ => rewrite H; clear H
         end;
  cbn [app].

Ltac call lemma :=
  let E := fresh "E" in
  let D := fresh "D" in
  cbv beta iota zeta; cbn [world trace fst snd];
  destruct lemma as (? & ? & ? & E & D);
  cbn [trace world] in E; rewrite E; clear E;
  cbv beta iota zeta; cbn [world trace fst snd].

Ltac call_sub :=
  cbv beta iota zeta; cbn [world trace fst snd];
  match goal with
  | |- context [check_file_access ?f ?s] => call (check_file_access_trace f s)
  | |- context [execute_command ?c ?v ?s] => call (execute_command_trace c v s)
  | |- context [get_file_info ?f ?s] => call (get_file_info_trace f s)
  | |- context [rename_to_m4v ?f ?d ?s] => call (rename_to_m4v_trace f d s)
  end.

Lemma run_two_passes (pass1 pass2 : list string) (verbose : bool) (st : state) :
  exists rc w new,
    run_passes [pass1; pass2] 0 2 verbose 0 st
    = (rc, mkState w (trace st ++ new))
    /\ ((rc <> 0 /\ dispatched new = [(join_string pass1 " ", rc)])
        \/ dispatched new
           = [(join_string pass1 " ", 0); (join_string pass2 " ", rc)]).
Proof.
  destruct st as [w t]. cbn [run_passes]. unfold_io.
  call_sub. destruct (_ =? 0) eqn:S1; cbn [negb].
  - apply Z.eqb_eq in S1; subst. call_sub.
    destruct (negb _); do 3 eexists;
      (split; [repeat rewrite <- app_assoc; reflexivity|]);
      right; repeat rewrite dispatched_app; cbn [dispatched app];
      rewrite D, D0; reflexivity.
  - apply Z.eqb_neq in S1. do 3 eexists.
    split; [repeat rewrite <- app_assoc; reflexivity|].
    left; split; [exact S1|].
    repeat rewrite dispatched_app; cbn [dispatched app]. rewrite D. reflexivity.
Qed.

Lemma process_file_two_pass (input_file media_dir output_dir : string)
    (ffmpeg_params : FFmpegParams) (original_format output_format : string)
    (force_m4v replace_underscores : bool) (analyze_duration probe_size : Z)
    (verbose : bool) (st : state) :
  is_multipass ffmpeg_params = true ->
  let output_file :=
    resolved_output_file input_file media_dir output_dir original_format
      output_format force_m4v true replace_underscores (world st) in
  exists pass1 pass2 rc w new,
    build_multipass_commands os input_file output_file ffmpeg_params
      analyze_duration probe_size verbose = [pass1; pass2]
    /\ process_file input_file media_dir output_dir ffmpeg_params
         original_format output_format force_m4v true false
         replace_underscores analyze_duration probe_size verbose st
       = (rc, mkState w (trace st ++ new))
    /\ two_pass_outcome input_file pass1 pass2 (dispatched new) (rc =? 0).
Proof.
  intros Mp. destruct st as [w t]. cbv zeta.
  unfold resolved_output_file, process_file. rewrite Mp. unfold_io.
  match goal with
  | |- context [build_multipass_commands os input_file ?o] =>
      destruct (build_multipass_commands_pair input_file o ffmpeg_params
                  analyze_duration probe_size verbose) as (pass1 & pass2 & B);
      rewrite B; clear B; set (output_file := o)
  end.
  exists pass1, pass2. cbn [List.length negb andb].
  match goal with
  | |- context [fs_exists ?d w] => set (output_subdir := d)
  end.
  destruct (fs_exists output_subdir w); cbn [negb]; simp;
    [| destruct (fs_create_directories output_subdir w); simp ].
  3: solve [leaf; left; split; reflexivity].
  all: call_sub; match goal with |- context [negb ?x] => destruct x end; simp.
  2, 4: solve [leaf; left; split; reflexivity].
  all: match goal with
       | |- context [run_passes _ _ _ _ _ ?s] =>
           call (run_two_passes pass1 pass2 verbose s)
       end.
  all: match goal with
       | |- context [?rc =? 0] => destruct (rc =? 0) eqn:Rc
       end; simp.
  all: [> apply Z.eqb_eq in Rc | apply Z.eqb_neq in Rc
        | apply Z.eqb_eq in Rc | apply Z.eqb_neq in Rc ].
  all: destruct force_m4v; simp; try call_sub.
  all: try match goal with |- context [negb ?x] => destruct x end; simp.
  all: try call_sub.
  all: match goal with
       | H : _ \/ _ |- _ => destruct H as [[N H] | H]
       end.
  all: try (subst; contradiction).
  all: try match goal with H : ?x = 0 |- _ => subst x end.
  all: leaf.
  all: first
         [ left; split; reflexivity
         | right; left;
           refine (ex_intro _ _ (ex_intro _ _ (conj _ (conj eq_refl eq_refl))));
           assumption
         | right; right; left;
           refine (ex_intro _ _ (ex_intro _ _ (conj _ (conj eq_refl eq_refl))));
           assumption
         | right; right; right; split; reflexivity ].
Qed.

(** C5: in execute mode with effective multipass, the loop of [main] on
    one file dispatches nothing (setup failed), or pass 1 alone when pass 1
    returns a non-zero status, or pass 1 and then pass 2 when pass 1
    returned 0; pass 2 is never dispatched otherwise.  Whenever a pass
    fails the file counts as failed, and the probe of the input follows. *)
Theorem pass2_only_after_pass1_success
    (file : string) (args : CmdOptions) (ffmpeg_params : FFmpegParams)
    (original_format output_format : string) (analyze_duration probe_size : Z)
    (n : counters) (st : state) :
  opt_execute args = true ->
  opt_dry_run args = false ->
  is_multipass ffmpeg_params = true ->
  fs_equivalent file (opt_json_file args) (world st) = false ->
  fs_exists (path_join (parent_path file) (opt_ignore_flag args)) (world st)
  = false ->
  let output_file :=
    resolved_output_file file (opt_input_dir args) (opt_output_dir args)
      original_format output_format (opt_force_m4v args) true
      (negb (opt_no_underscore_replace args)) (world st) in
  exists (pass1 pass2 : list string) (ok : bool) (w' : World)
         (new : list event),
    build_multipass_commands os file output_file ffmpeg_params
      analyze_duration probe_size (opt_verbose args) = [pass1; pass2]
    /\ process_all [file] args ffmpeg_params original_format output_format
         analyze_duration probe_size n st
       = (if ok then processed n else failed n,
          mkState w' (trace st ++ new))
    /\ two_pass_outcome file pass1 pass2 (dispatched new) ok.
Proof.
  intros Ex Dr Mp Eq Ig.
  destruct (process_file_two_pass file (opt_input_dir args)
              (opt_output_dir args) ffmpeg_params original_format
              output_format (opt_force_m4v args)
              (negb (opt_no_underscore_replace args)) analyze_duration
              probe_size (opt_verbose args) st Mp)
    as (pass1 & pass2 & rc & w' & new & B & P & O).
  cbv zeta. exists pass1, pass2, (rc =? 0).
  cbn [process_all]. unfold should_ignore_file.
  rewrite Ex, Dr. unfold and_then at 1. unfold ask at 1. rewrite Eq.
  unfold and_then at 1. unfold ask at 1. rewrite Ig.
  unfold and_then at 1. rewrite P.
  destruct (rc =? 0); unfold_io.
  - exists w', new. repeat split; assumption.
  - exists w'. eexists. repeat split; [exact B | | ].
    + rewrite <- app_assoc. reflexivity.
    + rewrite dispatched_app. cbn [dispatched]. rewrite app_nil_r. exact O.
Qed.

(** The rewrite of [main]: an output directory without the doubled segment
    is left alone; otherwise the first occurrence, and only that one, is
    replaced. *)
Lemma dedupe_converted_absent (output_dir : string) :
  Str.contains output_dir (path_join "converted" "converted") = false ->
  dedupe_converted output_dir = output_dir.
Proof.
  unfold dedupe_converted, Str.contains.
  destruct (Str.find output_dir _); [discriminate | reflexivity].
Qed.

Lemma dedupe_converted_first_occurrence (pre post : string) :
  let double_converted := path_join "converted" "converted" in
  (forall pre' post',
      pre ++ double_converted ++ post = pre' ++ double_converted ++ post' ->
      (String.length pre <= String.length pre')%nat) ->
  dedupe_converted (pre ++ double_converted ++ post)
  = pre ++ "converted" ++ post.
Proof.
  cbv zeta. intros First. unfold dedupe_converted.
  destruct (occurs_find pre (path_join "converted" "converted") post)
    as (n & F & L).
  rewrite F.
  destruct (find_some_occurs _ _ _ F) as (pre' & post' & E & Len).
  pose proof (First pre' post' E) as Min.
  assert (N : n = String.length pre) by lia. rewrite N.
  unfold Str.replace. rewrite substring_prefix_app. f_equal. f_equal.
  rewrite <- append_assoc, <- length_append. apply substr_from_app.
Qed.

(** What [check_file_access] refuses: a missing directory, an existing
    target with no permission bit at all, a directory in which the test
    file cannot be opened. *)
Lemma check_file_access_refuses (file_path : string) (st : state) :
  fs_is_directory (parent_path file_path) (world st) = false
  \/ (fs_exists file_path (world st) = true
      /\ fs_permissions file_path (world st) = perms_none)
  \/ ofstream_open (path_join (parent_path file_path) ".write_test_temp")
       (world st) = None ->
  fst (check_file_access file_path st) = false.
Proof.
  destruct st as [w t]. unfold check_file_access. unfold_io.
  intros H.
  destruct (fs_is_directory (parent_path file_path) w) eqn:D;
    cbn [negb]; simp; [|reflexivity].
  destruct H as [H | [[X P] | O]]; [discriminate | |].
  - rewrite X, P. reflexivity.
  - destruct (fs_exists file_path w && _); simp; [reflexivity|].
    rewrite O. reflexivity.
Qed.

(** What it accepts: in a writable directory every target that has some
    permission bit set passes, whether or not a write bit is among them. *)
Lemma check_file_access_accepts (file_path : string) (st : state)
    (w1 w2 : World) :
  fs_is_directory (parent_path file_path) (world st) = true ->
  fs_permissions file_path (world st) <> perms_none ->
  ofstream_open (path_join (parent_path file_path) ".write_test_temp")
    (world st) = Some w1 ->
  fs_remove (path_join (parent_path file_path) ".write_test_temp") w1
  = Done w2 ->
  fst (check_file_access file_path st) = true.
Proof.
  destruct st as [w t]. unfold check_file_access. unfold_io.
  intros D P O R. rewrite D. cbn [negb]. simp.
  apply Z.eqb_neq in P. rewrite P, andb_false_r. simp.
  rewrite O. simp. rewrite R. reflexivity.
Qed.

(** A refused output location: the file is skipped with status 1 and no
    command is dispatched for it. *)
Lemma process_file_access_denied (input_file media_dir output_dir : string)
    (ffmpeg_params : FFmpegParams) (original_format output_format : string)
    (force_m4v replace_underscores : bool) (analyze_duration probe_size : Z)
    (verbose : bool) (st : state) :
  let output_file :=
    resolved_output_file input_file media_dir output_dir original_format
      output_format force_m4v true replace_underscores (world st) in
  fs_exists (parent_path_of_output input_file media_dir output_dir (world st))
    (world st) = true ->
  fst (check_file_access output_file st) = false ->
  exists w new,
    process_file input_file media_dir output_dir ffmpeg_params
      original_format output_format force_m4v true false
      replace_underscores analyze_duration probe_size verbose st
    = (1, mkState w (trace st ++ new))
    /\ dispatched new = [].
Proof.
  destruct st as [w t]. cbv zeta.
  unfold resolved_output_file, parent_path_of_output, process_file.
  unfold_io. intros X A. rewrite X. cbn [negb]. simp.
  match goal with
  | |- context [check_file_access ?f ?s] =>
      destruct (check_file_access_trace f s) as (ok & w' & new & E & D);
      cbn [trace] in E; rewrite E in A |- *; cbn [fst] in A; subst ok
  end.
  simp. do 2 eexists.
  split; [repeat rewrite <- app_assoc; reflexivity|].
  rewrite dispatched_app, D. reflexivity.
Qed.

(** *** Further properties of [process_file] *)

(** Closes a goal that asks for the new part of an explicit trace and for a
    check of its events. *)
Ltac close_events :=
  eexists; split;
  [ repeat rewrite <- app_assoc; reflexivity
  | repeat rewrite forallb_app; cbn; repeat rewrite andb_true_r;
    try reflexivity ].





(** *** [check_file_access] and [rename_to_m4v] *)

(** X18: [check_file_access] returns true exactly when the directory of the
    target exists, the target is not an existing file without any
    permission bit, the test file can be opened and can be removed again.
    A successful check leaves the trace of the test file created and
    removed; a failed one always prints a message. *)
Theorem check_file_access_true_iff (file_path : string) (st : state) :
  let dir_path := parent_path file_path in
  let test_file := path_join dir_path ".write_test_temp" in
  let result := check_file_access file_path st in
  (fst result = true
   <-> fs_is_directory dir_path (world st) = true
       /\ fs_exists file_path (world st)
          && (fs_permissions file_path (world st) =? perms_none) = false
       /\ exists w1 w2,
            ofstream_open test_file (world st) = Some w1
            /\ fs_remove test_file w1 = Done w2)
  /\ exists new,
       trace (snd result) = (trace st ++ new)%list
       /\ (fst result = true -> new = [OpenForWrite test_file; Remove test_file])
       /\ (fst result = false ->
           exists message,
             new = [Print message]
             \/ new = [OpenForWrite test_file; Print message]).
Proof.
  destruct st as [w t]. cbv zeta. unfold check_file_access. unfold_io.
  destruct (fs_is_directory (parent_path file_path) w); cbn [negb]; simp.
  2: { split.
       - split; [discriminate | intros [D _]; discriminate].
       - eexists. split; [reflexivity|]. split; [discriminate|].
         intros _. eexists. left. reflexivity. }
  destruct (fs_exists file_path w && _); simp.
  { split.
    - split; [discriminate | intros (_ & P & _); discriminate].
    - eexists. split; [reflexivity|]. split; [discriminate|].
      intros _. eexists. left. reflexivity. }
  destruct (ofstream_open _ w) as [w1|] eqn:O; simp.
  2: { split.
       - split; [discriminate | intros (_ & _ & w1 & w2 & O' & _); discriminate].
       - eexists. split; [reflexivity|]. split; [discriminate|].
         intros _. eexists. left. reflexivity. }
  destruct (fs_remove _ w1) as [w2|what] eqn:R; simp.
  - split.
    + split; [intros _ | reflexivity].
      repeat split. exists w1, w2. split; [reflexivity | exact R].
    + eexists. split; [rewrite <- app_assoc; reflexivity|].
      split; [reflexivity | discriminate].
  - split.
    + split; [discriminate|].
      intros (_ & _ & w1' & w2 & O' & R'). injection O' as <-.
      rewrite R in R'. discriminate.
    + eexists. split; [rewrite <- app_assoc; reflexivity|].
      split; [discriminate|]. intros _. eexists. right. reflexivity.
Qed.

(** X19: [rename_to_m4v] never renames in dry-run mode and reports success;
    otherwise it reports success exactly when the file exists and
    [fs::rename] does not throw, and a failure leaves the world as it was. *)
Theorem rename_to_m4v_outcome (file_path : string) (dry_run : bool) (st : state) :
  let m4v_path :=
    path_join (parent_path file_path) (stem file_path ++ ".m4v") in
  let result := rename_to_m4v file_path dry_run st in
  (fst result = true
   <-> dry_run = true
       \/ (fs_exists file_path (world st) = true
           /\ exists w, fs_rename file_path m4v_path (world st) = Done w))
  /\ exists new,
       trace (snd result) = (trace st ++ new)%list
       /\ (dry_run = true \/ fst result = false ->
           world (snd result) = world st /\ forallb is_print new = true)
       /\ (dry_run = false -> fst result = true ->
           In (Rename file_path m4v_path) new).
Proof.
  destruct st as [w t]. cbv zeta. unfold rename_to_m4v. unfold_io.
  destruct dry_run; simp.
  - split; [split; auto|].
    eexists. split; [reflexivity|]. split; [auto | discriminate].
  - destruct (fs_exists file_path w); simp.
    + destruct (fs_rename _ _ w) as [w'|what] eqn:R; simp.
      * split.
        -- split; [intros _; right; split; [reflexivity | now exists w']
                  | reflexivity].
        -- eexists. split; [rewrite <- app_assoc; reflexivity|].
           split; [intros [H|H]; discriminate|].
           intros _ _. right. left. reflexivity.
      * split.
        -- split; [discriminate|].
           intros [H | (_ & w' & H)]; discriminate.
        -- eexists. split; [rewrite <- app_assoc; reflexivity|].
           split; [auto | discriminate].
    + split.
      * split; [discriminate|].
        intros [H | (H & _)]; discriminate.
      * eexists. split; [rewrite <- app_assoc; reflexivity|].
        split; [auto | discriminate].
Qed.

(** *** The batch *)



Lemma process_all_step (file : string) (rest : list string) (args : CmdOptions)
    (ffmpeg_params : FFmpegParams) (original_format output_format : string)
    (analyze_duration probe_size : Z) (n : counters) (st : state) :
  process_all (file :: rest) args ffmpeg_params original_format output_format
    analyze_duration probe_size n st
  = if fs_equivalent file (opt_json_file args) (world st) then
      process_all rest args ffmpeg_params original_format output_format
        analyze_duration probe_size n st
    else if fs_exists (path_join (parent_path file) (opt_ignore_flag args))
              (world st) then
      process_all rest args ffmpeg_params original_format output_format
        analyze_duration probe_size (skipped n 1)
        (mkState (world st)
           (trace st ++ [Print ("Skipping: " ++ file ++ " (ignore flag found)")]))
    else
      let r :=
        process_file file (opt_input_dir args) (opt_output_dir args)
          ffmpeg_params original_format output_format (opt_force_m4v args)
          (opt_execute args) (opt_dry_run args)
          (negb (opt_no_underscore_replace args)) analyze_duration probe_size
          (opt_verbose args) st in
      if fst r =? 0 then
        process_all rest args ffmpeg_params original_format output_format
          analyze_duration probe_size (processed n) (snd r)
      else
        process_all rest args ffmpeg_params original_format output_format
          analyze_duration probe_size (failed n)
          (mkState (world (snd r))
             (trace (snd r) ++ [Print ("Failed to process: " ++ file)])).
Proof.
  cbn [process_all]. unfold should_ignore_file. unfold_io.
  destruct (fs_equivalent _ _ _); [reflexivity|].
  destruct (fs_exists _ _); [reflexivity|].
  destruct (process_file _ _ _ _ _ _ _ _ _ _ _ _ _ st) as [rc st'].
  cbn [fst snd]. destruct (rc =? 0); reflexivity.
Qed.

(** X20: the three counters never decrease over a batch, and together they
    grow by at most the number of files handed to the loop. *)
Theorem process_all_counts_bounded (media_files : list string)
    (args : CmdOptions) (ffmpeg_params : FFmpegParams)
    (original_format output_format : string) (analyze_duration probe_size : Z) :
  forall (n : counters) (st : state),
    let n' :=
      fst (process_all media_files args ffmpeg_params original_format
             output_format analyze_duration probe_size n st) in
    file_count n <= file_count n'
    /\ skipped_count n <= skipped_count n'
    /\ error_count n <= error_count n'
    /\ total n' <= total n + Z.of_nat (List.length media_files).
Proof.
  induction media_files as [|file rest IH]; intros n st; cbv zeta.
  - unfold total. cbn. lia.
  - rewrite process_all_step. cbv zeta.
    repeat match goal with
           | |- context [if ?b then _ else _] => destruct b
           end;
      match goal with
      | |- context [process_all rest _ _ _ _ _ _ ?m ?s] =>
          specialize (IH m s); cbv zeta in IH; unfold total in *;
          cbn [List.length file_count skipped_count error_count skipped
                 processed failed] in *; lia
      end.
Qed.

(** X21: when no file of the batch is the preset file itself, every file is
    counted exactly once, as processed, skipped or failed. *)
Theorem process_all_accounts_for_every_file (media_files : list string)
    (args : CmdOptions) (ffmpeg_params : FFmpegParams)
    (original_format output_format : string) (analyze_duration probe_size : Z) :
  (forall file w, In file media_files ->
                  fs_equivalent file (opt_json_file args) w = false) ->
  forall (n : counters) (st : state),
    total (fst (process_all media_files args ffmpeg_params original_format
                  output_format analyze_duration probe_size n st))
    = total n + Z.of_nat (List.length media_files).
Proof.
  induction media_files as [|file rest IH]; intros Ne n st.
  - unfold total. cbn. lia.
  - rewrite process_all_step. cbv zeta.
    rewrite (Ne file (world st) (or_introl eq_refl)).
    assert (Ne' : forall f w, In f rest ->
                    fs_equivalent f (opt_json_file args) w = false)
      by (intros f w I; apply Ne; right; exact I).
    specialize (IH Ne').
    repeat match goal with
           | |- context [if ?b then _ else _] => destruct b
           end;
      rewrite IH; unfold total;
      cbn [List.length file_count skipped_count error_count skipped
             processed failed]; lia.
Qed.

(** X22: files whose directory holds the ignore flag are never handed to
    [process_file]: the batch only prints, leaves the world as it was and
    counts each of them as skipped. *)
Theorem process_all_ignored_files (media_files : list string)
    (args : CmdOptions) (ffmpeg_params : FFmpegParams)
    (original_format output_format : string) (analyze_duration probe_size : Z) :
  forall (n : counters) (st : state),
    (forall file, In file media_files ->
       fs_equivalent file (opt_json_file args) (world st) = false
       /\ fs_exists (path_join (parent_path file) (opt_ignore_flag args))
            (world st) = true) ->
    exists new,
      process_all media_files args ffmpeg_params original_format
        output_format analyze_duration probe_size n st
      = (skipped n (Z.of_nat (List.length media_files)),
         mkState (world st) (trace st ++ new))
      /\ forallb is_print new = true.
Proof.
  induction media_files as [|file rest IH]; intros n st H.
  - exists []. destruct st, n. unfold skipped. cbn.
    rewrite app_nil_r, Z.add_0_r. split; reflexivity.
  - rewrite process_all_step.
    destruct (H file (or_introl eq_refl)) as [E I]. rewrite E, I.
    destruct (IH (skipped n 1)
                (mkState (world st)
                   (trace st
                      ++ [Print ("Skipping: " ++ file ++ " (ignore flag found)")])))
      as (new & P & Q).
    { intros f F. apply H. right. exact F. }
    rewrite P. cbn [world trace]. eexists. split.
    + rewrite <- app_assoc. f_equal. unfold skipped.
      cbn [file_count skipped_count error_count List.length]. f_equal. lia.
    + cbn. exact Q.
Qed.


Lemma show_preset_prints (ffmpeg_params : FFmpegParams) (output_format : string)
    (analyze_duration probe_size : Z) (st : state) :
  exists new,
    show_preset ffmpeg_params output_format analyze_duration probe_size st
    = (tt, mkState (world st) (trace st ++ new))
    /\ forallb is_print new = true.
Proof.
  destruct st as [w t]. unfold show_preset. unfold_io.
  repeat case_step; close_events.
Qed.

(** X23: [find_media_files] leaves the world alone and at most reports an
    error; what it returns are, in the order of the enumeration, exactly the
    enumerated regular files whose extension, lower-cased and without its
    dot, is in the list. *)
Theorem find_media_files_result (directory : string) (recursive : bool)
    (extensions : list string) (st : state) :
  let found := directory_entries recursive directory (world st) in
  let result := find_media_files directory recursive extensions st in
  world (snd result) = world st
  /\ (exists new,
        trace (snd result) = (trace st ++ new)%list
        /\ forallb is_print new = true)
  /\ fst result = filter (is_media_file extensions (world st)) (fst found)
  /\ (forall file,
        In file (fst result)
        <-> In file (fst found)
            /\ fs_is_regular_file file (world st) = true
            /\ extension file <> ""
            /\ In (lowercase (Str.substr_from (extension file) 1)) extensions)
  /\ (NoDup (fst found) -> NoDup (fst result)).
Proof.
  destruct st as [w t]. cbv zeta. unfold find_media_files. unfold_io.
  destruct (directory_entries recursive directory w) as [entries err].
  cbn [fst snd].
  assert (Spec : forall file,
             In file (filter (is_media_file extensions w) entries)
             <-> In file entries
                 /\ fs_is_regular_file file w = true
                 /\ extension file <> ""
                 /\ In (lowercase (Str.substr_from (extension file) 1))
                      extensions).
  { intros file. rewrite filter_In. unfold is_media_file.
    rewrite !andb_true_iff, negb_true_iff, existsb_exists.
    split.
    - intros (I & (R & E) & x & X & Q). apply String.eqb_eq in Q. subst x.
      repeat split; try assumption. intros Z; rewrite Z in E; discriminate.
    - intros (I & R & E & X). repeat split; try assumption.
      + destruct (extension file); [contradiction | reflexivity].
      + eexists. split; [exact X | apply String.eqb_refl]. }
  destruct err; simp;
    (split; [reflexivity|]);
    (split; [first [ eexists; split; [reflexivity | reflexivity]
                   | exists []; split; [now rewrite app_nil_r | reflexivity] ]|]);
    (split; [reflexivity|]);
    (split; [exact Spec | apply NoDup_filter]).
Qed.


(** The calculus of computations that only print. *)













End OrchestratorFacts.

(** ** Runs in the simulated environment *)

Section Runs.

Import Sim Scenario.

#[local] Existing Instance sim_env.

Lemma pass2_only_after_pass1_success_witness :
  exists (pass1 pass2 : list string) (ok : bool) (w' : sim_world)
         (new : list event),
    build_multipass_commands Posix "media/clip.mp4" "media/converted/clip.mp4"
      two_pass_params 100000000 100000000 false = [pass1; pass2]
    /\ process_all ["media/clip.mp4"] execute_options two_pass_params
         "mp4" "mp4" 100000000 100000000 no_counts (start pass1_fails_world)
       = (if ok then processed no_counts else failed no_counts,
          mkState w' new)
    /\ two_pass_outcome "media/clip.mp4" pass1 pass2 (dispatched new) ok.
Proof.
  exact (pass2_only_after_pass1_success "media/clip.mp4" execute_options
           two_pass_params "mp4" "mp4" 100000000 100000000 no_counts
           (start pass1_fails_world) eq_refl eq_refl eq_refl eq_refl eq_refl).
Defined.

(** In that run pass 1 returns 1: it is followed by the probe, not by
    pass 2, and the file is counted as failed. *)
Example pass1_failure_run :
  let r :=
    process_all ["media/clip.mp4"] execute_options two_pass_params
      "mp4" "mp4" 100000000 100000000 no_counts (start pass1_fails_world) in
  fst r = failed no_counts
  /\ dispatched (trace (snd r))
     = [("ffmpeg -analyzeduration 100000000 -probesize 100000000 -i media/clip.mp4 -c:v libx264 -b:v 1500k -preset slow -s 1280x720 -c:a aac -b:a 0k -v error -stats -map 0 -pass 1 -f null /dev/null",
         1);
        (probe_command "media/clip.mp4", 0)].
Proof. vm_compute. split; reflexivity. Qed.

(** C7, at a target that exists read-only (mode 0444): the access check
    passes, the transcode is dispatched and the file is counted as
    processed. *)
Theorem read_only_output_is_dispatched :
  let w := read_only_output_world in
  let r :=
    process_all ["media/clip.mp4"] execute_options crf_params
      "mkv" "mkv" 100000000 100000000 no_counts (start w) in
  fs_exists "media/converted/clip.mkv" w = true
  /\ Z.land (fs_permissions "media/converted/clip.mkv" w) 146 = 0
  /\ fst (check_file_access "media/converted/clip.mkv" (start w)) = true
  /\ fst r = processed no_counts
  /\ dispatched (trace (snd r))
     = [("ffmpeg -analyzeduration 100000000 -probesize 100000000 -i media/clip.mp4 -c:v libx265 -crf 20.000000 -preset  -s 0x0 -c:a aac -b:a 0k -v error -stats -map 0 media/converted/clip.mkv",
         0)].
Proof. vm_compute. repeat split; reflexivity. Qed.

(** C9, at an output directory with three "converted" segments: one
    occurrence is rewritten, the directory that is created and written to
    still holds "converted/converted". *)
Theorem triple_converted_stays_doubled :
  let r :=
    run_batch triple_options crf_params (start (fresh_world x265_preset)) in
  dedupe_converted "x/converted/converted/converted" = "x/converted/converted"
  /\ occurs "converted/converted" "x/converted/converted"
  /\ In (CreateDirectories "x/converted/converted") (trace (snd r))
  /\ dispatched (trace (snd r))
     = [("ffmpeg -analyzeduration 100000000 -probesize 100000000 -i media/clip.mp4 -c:v libx265 -crf 20.000000 -preset  -s 0x0 -c:a aac -b:a 0k -v error -stats -map 0 x/converted/converted/clip.mkv",
         0)].
Proof.
  cbv zeta. split; [vm_compute; reflexivity|].
  split; [exists "x/", EmptyString; reflexivity|].
  split; [|vm_compute; reflexivity].
  vm_compute. right. left. reflexivity.
Qed.

(** A path with a single doubled segment is rewritten as intended. *)
Example double_converted_is_rewritten :
  dedupe_converted "media/converted/converted" = "media/converted".
Proof. vm_compute. reflexivity. Qed.

(** The dry run of the x265 preset: the command is printed, nothing is
    dispatched behind the two tool checks and the world is left as it was. *)
Example dry_run_of_x265_preset :
  let w := fresh_world x265_preset in
  let r := main (options "media/p.json" "" "" false true) (start w) in
  fst r = Ok 0
  /\ world (snd r) = w
  /\ In (Print "ffmpeg -analyzeduration 100000000 -probesize 100000000 -i media/clip.mp4 -c:v libx265 -crf 20.000000 -preset  -s 0x0 -c:a aac -b:a 0k -v error -stats -map 0 media/converted/clip.mkv")
       (trace (snd r))
  /\ dispatched (trace (snd r))
     = [("ffmpeg -version > /dev/null 2>&1", 0);
        ("ffprobe -version > /dev/null 2>&1", 0)].
Proof. vm_compute. repeat split; try reflexivity. do 12 right. left. reflexivity. Qed.

End Runs.

(** * Further properties *)

(** ** [split_string], [join_string] and [escape_string] *)

Section SplitJoinFacts.

Variable delimiter : ascii.

Lemma has_char_append (c : ascii) (a b : string) :
  has_char c (a ++ b) = has_char c a || has_char c b.
Proof.
  induction a as [|x a IH]; simpl; [reflexivity|].
  now rewrite IH, orb_assoc.
Qed.

Lemma fields_not_nil (s : string) : fields delimiter s <> [].
Proof.
  induction s as [|c s IH]; simpl; [discriminate|].
  destruct (Ascii.eqb c delimiter); [discriminate|].
  destruct (fields delimiter s); discriminate.
Qed.

Lemma fields_no_delimiter (s : string) :
  Forall (fun f => has_char delimiter f = false) (fields delimiter s).
Proof.
  induction s as [|c s IH]; simpl.
  - constructor; [reflexivity | constructor].
  - destruct (Ascii.eqb c delimiter) eqn:E.
    + constructor; [reflexivity | exact IH].
    + destruct (fields delimiter s) as [|f fs]; inversion IH; subst.
      * constructor; [simpl; now rewrite E | constructor].
      * constructor; [simpl; now rewrite E | assumption].
Qed.

(** A string without the delimiter is a single field. *)
Lemma fields_plain (s : string) :
  has_char delimiter s = false -> fields delimiter s = [s].
Proof.
  induction s as [|c s IH]; simpl; [reflexivity|].
  intros H. apply orb_false_iff in H as [E H].
  rewrite E, (IH H). reflexivity.
Qed.

Lemma fields_append (a rest : string) :
  has_char delimiter a = false ->
  fields delimiter (a ++ String delimiter rest) = a :: fields delimiter rest.
Proof.
  induction a as [|c a IH]; simpl; intros H.
  - now rewrite Ascii.eqb_refl.
  - apply orb_false_iff in H as [E H]. rewrite E, (IH H). reflexivity.
Qed.

(** X1: the tokens [split_string] returns are never empty and never hold
    the delimiter; the empty string has no token, and a non-empty string
    without delimiter is its own single token. *)
Theorem split_string_tokens (s : string) :
  Forall (fun t => t <> "" /\ has_char delimiter t = false)
    (split_string s delimiter)
  /\ split_string "" delimiter = []
  /\ (s <> "" -> has_char delimiter s = false ->
      split_string s delimiter = [s]).
Proof.
  rewrite !split_string_split_on. unfold split_on. repeat split.
  - apply Forall_forall. intros t I. apply filter_In in I as [I N].
    split.
    + intros ->. discriminate.
    + pose proof (fields_no_delimiter s) as F.
      rewrite Forall_forall in F. now apply F.
  - intros N H. rewrite (fields_plain s H). simpl.
    destruct s; [contradiction | reflexivity].
Qed.

Lemma split_join (tokens : list string) :
  Forall (fun t => t <> "" /\ has_char delimiter t = false) tokens ->
  split_string (join_string tokens (String delimiter "")) delimiter = tokens.
Proof.
  intros H. rewrite split_string_split_on. unfold split_on.
  destruct tokens as [|t tokens]; [reflexivity|].
  assert (F : fields delimiter (join_string (t :: tokens) (String delimiter ""))
              = t :: tokens).
  { clear - H. revert t H. induction tokens as [|u tokens IH]; intros t H.
    - inversion H as [|? ? [_ D] _]; subst. simpl. now apply fields_plain.
    - inversion H as [|? ? [_ D] H']; subst.
      change (join_string (t :: u :: tokens) (String delimiter ""))
        with (t ++ String delimiter
                      (join_string (u :: tokens) (String delimiter ""))).
      rewrite (fields_append _ _ D), (IH u H'). reflexivity. }
  rewrite F. clear F. induction H as [|x l [N _] _ IH]; [reflexivity|].
  simpl. destruct x; [contradiction|]. simpl. now rewrite IH.
Qed.

(** X2: joining tokens with the delimiter and splitting again gives the
    tokens back, when none of them is empty or holds the delimiter. *)
Theorem split_join_roundtrip (tokens : list string) :
  Forall (fun t => t <> "" /\ has_char delimiter t = false) tokens ->
  split_string (join_string tokens (String delimiter "")) delimiter = tokens.
Proof. exact (split_join tokens). Qed.

End SplitJoinFacts.

Lemma split_join_roundtrip_witness :
  split_string (join_string ["-c:a"; "aac"; "-b:a"; "160k"] " ") space
  = ["-c:a"; "aac"; "-b:a"; "160k"].
Proof.
  apply (split_join_roundtrip space ["-c:a"; "aac"; "-b:a"; "160k"]).
  repeat constructor; discriminate.
Defined.

Section RenderFacts.

Lemma length_join_string (l : list string) (d : string) :
  String.length (join_string l d)
  = (total_length l + Nat.pred (List.length l) * String.length d)%nat.
Proof.
  induction l as [|a l IH]; [reflexivity|].
  destruct l as [|b l].
  - simpl. lia.
  - change (join_string (a :: b :: l) d) with (a ++ d ++ join_string (b :: l) d).
    rewrite !length_append, IH. simpl. lia.
Qed.

Lemma length_escape_string (a : string) :
  String.length (escape_string a)
  = (String.length a + if spaced a then 2 else 0)%nat.
Proof.
  unfold escape_string, spaced. destruct (Str.find_char a space).
  - simpl. rewrite length_append. simpl. lia.
  - lia.
Qed.

Lemma total_length_escaped (l : list string) :
  total_length (map escape_string l)
  = (total_length l + 2 * List.length (filter spaced l))%nat.
Proof.
  induction l as [|a l IH]; [reflexivity|].
  simpl. rewrite IH, length_escape_string.
  destruct (spaced a); simpl; lia.
Qed.

(** X3: the printed form of a command ([escape_string] on every argument)
    is longer than the string [execute_command] hands to [system] by two
    characters for every argument that holds a space; the two are the same
    string exactly when no argument holds a space. *)
Theorem render_eq_join_iff (cmd : list string) :
  String.length (render cmd)
  = (String.length (join_string cmd " ")
     + 2 * List.length (filter spaced cmd))%nat
  /\ (render cmd = join_string cmd " " <-> existsb spaced cmd = false).
Proof.
  assert (L : String.length (render cmd)
              = (String.length (join_string cmd " ")
                 + 2 * List.length (filter spaced cmd))%nat).
  { unfold render. rewrite !length_join_string, total_length_escaped.
    rewrite length_map. lia. }
  split; [exact L|]. split.
  - intros E. rewrite E in L.
    destruct (existsb spaced cmd) eqn:X; [|reflexivity].
    apply existsb_exists in X as (a & I & S).
    assert (In a (filter spaced cmd)) as F by (apply filter_In; now split).
    destruct (filter spaced cmd); [contradiction | simpl in L; lia].
  - intros X. clear L. unfold render. f_equal.
    induction cmd as [|a cmd IH]; [reflexivity|].
    simpl in X. apply orb_false_iff in X as [S X].
    simpl. rewrite (IH X). f_equal.
    unfold escape_string. unfold spaced in S.
    destruct (Str.find_char a space); [discriminate | reflexivity].
Qed.

End RenderFacts.

(** ** [format_filename] *)

Section FormatFacts.

Let underscore : ascii := ascii_of_nat 95.

(** X4: [format_filename] keeps the length of the name; with replacement on
    no underscore is left, and a name without underscore, or any name with
    replacement off, is returned as it is. *)
Theorem format_filename_underscores (basename : string) (replace_underscores : bool) :
  String.length (format_filename basename replace_underscores)
  = String.length basename
  /\ has_char underscore (format_filename basename true) = false
  /\ format_filename basename false = basename
  /\ (has_char underscore basename = false ->
      format_filename basename replace_underscores = basename)
  /\ format_filename (format_filename basename replace_underscores)
       replace_underscores
     = format_filename basename replace_underscores.
Proof.
  unfold format_filename, underscore.
  assert (L : forall s, String.length
                (Str.replace_char (ascii_of_nat 95) space s) = String.length s).
  { induction s as [|c s IH]; simpl; [reflexivity | now rewrite IH]. }
  assert (N : forall s,
             has_char (ascii_of_nat 95)
               (Str.replace_char (ascii_of_nat 95) space s) = false).
  { induction s as [|c s IH]; simpl; [reflexivity|]. rewrite IH.
    destruct (Ascii.eqb c (ascii_of_nat 95)) eqn:E; [reflexivity|].
    now rewrite E. }
  assert (I : forall s, has_char (ascii_of_nat 95) s = false ->
                        Str.replace_char (ascii_of_nat 95) space s = s).
  { induction s as [|c s IH]; simpl; [reflexivity|].
    intros H. apply orb_false_iff in H as [E H]. now rewrite E, IH. }
  repeat split.
  - destruct replace_underscores; [apply L | reflexivity].
  - apply N.
  - intros H. destruct replace_underscores; [now apply I | reflexivity].
  - destruct replace_underscores; [apply I, N | reflexivity].
Qed.

End FormatFacts.

(** ** [parse_arguments] *)

Section ParseFacts.

Variable progname : string.

(** The loop calls itself on the tail, or on the tail of the tail. *)
Lemma parse_loop_ind (P : list string -> Prop) :
  P [] ->
  (forall arg rest, P rest -> (forall value rest', rest = value :: rest' -> P rest') ->
                    P (arg :: rest)) ->
  forall args, P args.
Proof.
  intros Hnil Hcons args.
  assert (H : P args /\ (forall value rest', args = value :: rest' -> P rest')).
  { induction args as [|arg rest [IH1 IH2]].
    - split; [exact Hnil | discriminate].
    - split.
      + apply Hcons; assumption.
      + intros value rest' [= -> ->]. exact IH1. }
  apply H.
Qed.

Ltac parse_cases :=
  repeat match goal with
         | |- context [if ?b then _ else _] => destruct b eqn:?
         | H : context [if ?b then _ else _] |- _ => destruct b eqn:?
         end.

(** X5: a successful parse keeps the first argument as the preset file,
    whatever it looks like and whatever follows it. *)
Theorem parse_arguments_json_file (json_file : string) (rest : list string)
    (options : CmdOptions) :
  parse_arguments progname (json_file :: rest) = Parsed options ->
  opt_json_file options = json_file.
Proof.
  unfold parse_arguments.
  assert (H : forall args o o',
             parse_loop progname args o = Parsed o' ->
             opt_json_file o' = opt_json_file o).
  { intros args. induction args as [|arg args IH IH'] using parse_loop_ind;
      intros o o' E.
    - now injection E as <-.
    - cbn [parse_loop] in E. parse_cases; try discriminate;
        try (apply IH in E; exact E).
      all: destruct args as [|value rest']; [discriminate|];
           apply (IH' value rest' eq_refl) in E; exact E. }
  intros E. apply H in E. exact E.
Qed.

(** X6: when [parse_arguments] ends the process, it is with status 0 and
    the version line, or with status 1 and the usage text, which an unknown
    option precedes by an error line. *)
Theorem parse_arguments_exits (args : list string) (status : Z)
    (output : list event) :
  parse_arguments progname args = Exited status output ->
  (status = 0 /\ output = [Print ("Script Version=" ++ SCRIPT_VERSION)])
  \/ (status = 1
      /\ (output = show_usage progname
          \/ exists arg,
               In arg args
               /\ output = PrintErr ("Unknown option: " ++ arg)
                             :: show_usage progname)).
Proof.
  assert (H : forall args o,
             parse_loop progname args o = Exited status output ->
             (status = 0 /\ output = [Print ("Script Version=" ++ SCRIPT_VERSION)])
             \/ (status = 1
                 /\ (output = show_usage progname
                     \/ exists arg,
                          In arg args
                          /\ output = PrintErr ("Unknown option: " ++ arg)
                                        :: show_usage progname))).
  { clear args. intros args.
    induction args as [|arg args IH IH'] using parse_loop_ind; intros o E.
    - discriminate.
    - assert (Up : forall rest,
                 (forall a, In a rest -> In a (arg :: args)) ->
                 (status = 0 /\ output = [Print ("Script Version=" ++ SCRIPT_VERSION)])
                 \/ (status = 1
                     /\ (output = show_usage progname
                         \/ exists a,
                              In a rest
                              /\ output = PrintErr ("Unknown option: " ++ a)
                                            :: show_usage progname)) ->
                 (status = 0 /\ output = [Print ("Script Version=" ++ SCRIPT_VERSION)])
                 \/ (status = 1
                     /\ (output = show_usage progname
                         \/ exists a,
                              In a (arg :: args)
                              /\ output = PrintErr ("Unknown option: " ++ a)
                                            :: show_usage progname))).
      { intros rest Sub [Z | [O [U | (a & I & U)]]]; auto.
        right. split; [exact O|]. right. exists a. split; [now apply Sub | exact U]. }
      cbn [parse_loop] in E. parse_cases.
      all: try (apply IH in E; apply (Up args); [intros a I; now right | exact E]).
      all: try (injection E as <- <-; auto; fail).
      all: try (destruct args as [|value rest'];
                [injection E as <- <-; auto
                | apply (IH' value rest' eq_refl) in E;
                  apply (Up rest'); [intros a I; right; now right | exact E]]).
      injection E as <- <-. right. split; [reflexivity|]. right.
      exists arg. split; [now left | reflexivity]. }
  unfold parse_arguments. destruct args as [|json_file rest].
  - intros [= <- <-]. auto.
  - intros E. apply H in E.
    destruct E as [Z | [O [U | (a & I & U)]]]; auto.
    right. split; [exact O|]. right. exists a. split; [now right | exact U].
Qed.

Lemma given_cons (x y a : string) (args : list string) :
  given x y (a :: args) = is_either a x y || given x y args.
Proof. reflexivity. Qed.

(** X7: a command line of switches only always parses; each switch turns
    its option on, in any order and however often it is given, and nothing
    turns an option off. *)
Theorem parse_loop_switches (args : list string) :
  forall options : CmdOptions,
    forallb is_switch args = true ->
    parse_loop progname args options = Parsed (switched options args).
Proof.
  induction args as [|arg args IH]; intros o S.
  - unfold switched, given. cbn. rewrite !orb_false_r. now destruct o.
  - cbn [forallb] in S. apply andb_true_iff in S as [A S].
    unfold is_switch in A. cbn [existsb] in A.
    repeat (apply orb_true_iff in A as [A | A];
            [apply String.eqb_eq in A; subst arg |]);
      try discriminate;
      cbn [parse_loop is_either String.eqb Ascii.eqb Bool.eqb orb];
      rewrite (IH _ S); f_equal; unfold switched;
      cbn [with_recursive with_execute with_dry_run with_show_preset
             with_force_m4v with_no_underscore_replace with_verbose
             opt_json_file opt_recursive opt_execute opt_dry_run
             opt_show_preset opt_force_m4v opt_no_underscore_replace
             opt_verbose opt_input_dir opt_output_dir opt_ignore_flag
             opt_log_file];
      rewrite !given_cons;
      cbn [existsb is_either String.eqb Ascii.eqb Bool.eqb orb];
      rewrite ?orb_true_r; reflexivity.
Qed.

End ParseFacts.

Lemma parse_arguments_json_file_witness :
  opt_json_file (with_execute (with_json_file default_options "--help"))
  = "--help".
Proof.
  apply (parse_arguments_json_file "hb-ffmpeg-conv" "--help" ["-e"]).
  reflexivity.
Defined.

Lemma parse_arguments_exits_witness :
  (1 = 0 /\ PrintErr "Unknown option: --fast" :: show_usage "hb-ffmpeg-conv"
            = [Print ("Script Version=" ++ SCRIPT_VERSION)])
  \/ (1 = 1
      /\ (PrintErr "Unknown option: --fast" :: show_usage "hb-ffmpeg-conv"
          = show_usage "hb-ffmpeg-conv"
          \/ exists arg,
               In arg ["p.json"; "-r"; "--fast"; "-v"]
               /\ PrintErr "Unknown option: --fast" :: show_usage "hb-ffmpeg-conv"
                  = PrintErr ("Unknown option: " ++ arg)
                      :: show_usage "hb-ffmpeg-conv")).
Proof.
  apply (parse_arguments_exits "hb-ffmpeg-conv"
           ["p.json"; "-r"; "--fast"; "-v"] 1
           (PrintErr "Unknown option: --fast" :: show_usage "hb-ffmpeg-conv")).
  reflexivity.
Defined.

Lemma parse_loop_switches_witness :
  parse_loop "hb-ffmpeg-conv" ["-e"; "--dry-run"; "-r"; "-e"]
    (with_json_file default_options "p.json")
  = Parsed (mkCmdOptions "p.json" true true true false false false false
              "" "" ".noconvert" "").
Proof.
  apply (parse_loop_switches "hb-ffmpeg-conv" ["-e"; "--dry-run"; "-r"; "-e"]
           (with_json_file default_options "p.json")).
  reflexivity.
Defined.

(** ** [extract_preset_settings] and [convert_to_ffmpeg_params], further *)

Section ExtractMore.

(** X8: a preset that holds none of the keys the extractor looks up is
    extracted, without an exception, to the defaults: empty strings, "0"
    for the numbers, multipass off. *)
Theorem extract_defaults (top members : list (string * json)) (others : list json) :
  Json.find top "PresetList" = Some (JArray (JObject members :: others)) ->
  (forall key, In key preset_keys -> Json.find members key = None) ->
  extract_preset_settings (JObject top) = Ok default_settings.
Proof.
  intros HP HK.
  assert (K : forall key, In key preset_keys -> Json.find members key = None)
    by exact HK.
  unfold extract_preset_settings, Json.value at 1. rewrite HP.
  cbn [bind Json.subscript_idx nth].
  unfold int_field, string_or_int_field, double_field, Json.contains.
  unfold Json.value.
  repeat match goal with
         | |- context [Json.find members ?k] =>
             rewrite (K k) by (unfold preset_keys; simpl; tauto)
         end.
  reflexivity.
Qed.

(** X9: without a first preset there is no extraction: a document that is
    not an object, or whose preset list is missing, null or empty, raises
    type error 306; a preset list that is neither an array nor null raises
    type error 305. *)
Theorem extract_without_preset (preset_data : json) :
  (match preset_data with
   | JObject top =>
       match Json.find top "PresetList" with
       | None | Some JNull | Some (JArray []) =>
           extract_preset_settings preset_data = Throws (type_error 306)
       | Some (JArray (JObject _ :: _)) => True
       | Some (JArray (_ :: _)) =>
           extract_preset_settings preset_data = Throws (type_error 306)
       | Some _ =>
           extract_preset_settings preset_data = Throws (type_error 305)
       end
   | _ => extract_preset_settings preset_data = Throws (type_error 306)
   end).
Proof.
  destruct preset_data as [| | | | | | |top]; try reflexivity.
  destruct (Json.find top "PresetList") as [[| | | | | |elems|]|] eqn:F;
    try (unfold extract_preset_settings; unfold Json.value at 1;
         rewrite F; reflexivity).
  destruct elems as [|[| | | | | | |] elems];
    try (unfold extract_preset_settings; unfold Json.value at 1;
         rewrite F; reflexivity).
  exact I.
Qed.

Lemma extract_first_preset (top : list (string * json)) (first : json)
    (others : list json) :
  Json.find top "PresetList" = Some (JArray (first :: others)) ->
  extract_preset_settings (JObject top)
  = extract_preset_settings (JObject [("PresetList", JArray [first])]).
Proof.
  intros HP. unfold extract_preset_settings. unfold Json.value at 1.
  rewrite HP. reflexivity.
Qed.

(** X10: only the first preset of the list and only the first audio track
    of that preset are read: what follows them does not change the result,
    be it an exception. *)
Theorem extract_reads_first_entries
    (top top' members members' : list (string * json))
    (track : json) (tracks tracks' others others' : list json) :
  Json.find top "PresetList" = Some (JArray (JObject members :: others)) ->
  Json.find top' "PresetList" = Some (JArray (JObject members' :: others')) ->
  Json.find members "AudioList" = Some (JArray (track :: tracks)) ->
  Json.find members' "AudioList" = Some (JArray (track :: tracks')) ->
  (forall key, key <> "AudioList" ->
               Json.find members' key = Json.find members key) ->
  extract_preset_settings (JObject top') = extract_preset_settings (JObject top).
Proof.
  intros HP HP' HA HA' Same.
  rewrite (extract_first_preset top' _ _ HP'), (extract_first_preset top _ _ HP).
  unfold extract_preset_settings, int_field, string_or_int_field,
    double_field, Json.contains, Json.subscript_key, Json.value.
  cbn [Json.find String.eqb Ascii.eqb Bool.eqb bind Json.subscript_idx nth].
  rewrite HA, HA'.
  cbn [bind Json.size List.length Nat.ltb Nat.leb Json.subscript_idx nth].
  repeat match goal with
         | |- context [Json.find members' ?k] =>
             rewrite (Same k) by discriminate
         end.
  reflexivity.
Qed.

Lemma digits_have_no_c (d : Decimal.uint) :
  has_char "c" (NilEmpty.string_of_uint d) = false.
Proof. induction d; simpl; assumption || reflexivity. Qed.

Lemma to_string_int_has_no_c (z : Z) :
  has_char "c" (Str.to_string_int z) = false.
Proof.
  unfold Str.to_string_int, NilZero.string_of_int, NilZero.string_of_uint.
  destruct (Z.to_int z) as [d | d]; destruct d; simpl;
    try reflexivity; apply digits_have_no_c.
Qed.

Lemma occurs_has_char (c : ascii) (pat s : string) :
  occurs pat s -> has_char c pat = true -> has_char c s = true.
Proof.
  intros (pre & post & ->) H.
  rewrite !has_char_append, H. now rewrite orb_true_r.
Qed.

Lemma int_field_has_no_c (j : json) (key value : string) :
  int_field j key = Ok value -> has_char "c" value = false.
Proof.
  unfold int_field. destruct (Json.contains j key).
  - destruct (Json.subscript_key j key) as [v| |]; simpl; try discriminate.
    destruct (Json.get_int v) as [n| |]; simpl; try discriminate.
    intros [= <-]. apply to_string_int_has_no_c.
  - intros [= <-]. reflexivity.
Qed.

Ltac invert_binds H :=
  repeat (apply bind_Ok in H;
          let a := fresh "v" in
          let E := fresh "E" in
          destruct H as (a & E & H)).

(** X11: for settings that come out of the extractor, two-pass encoding
    takes effect exactly when the preset asks for multipass and its quality
    type is not "2": the bitrate fragment built from an extracted bitrate
    never holds "-crf". *)
Theorem extracted_multipass (preset_data : json) (settings : Settings) :
  extract_preset_settings preset_data = Ok settings ->
  is_multipass (convert_to_ffmpeg_params settings)
  = video_multipass settings
    && negb (String.eqb (video_quality_type settings) "2").
Proof.
  intros H. unfold extract_preset_settings in H. invert_binds H.
  injection H as <-.
  match goal with
  | E : int_field _ "VideoAvgBitrate" = Ok ?b |- _ =>
      pose proof (int_field_has_no_c _ _ _ E) as NoC
  end.
  unfold is_multipass.
  cbn [convert_to_ffmpeg_params quality multipass video_multipass
         video_quality_type video_quality video_bitrate].
  f_equal. f_equal.
  destruct (String.eqb _ "2").
  - apply contains_iff_occurs. exists "".
    eexists. reflexivity.
  - destruct (Str.contains _ "-crf") eqn:C; [|reflexivity].
    apply contains_iff_occurs in C.
    apply (occurs_has_char "c") in C; [|reflexivity].
    rewrite !has_char_append, NoC in C. discriminate.
Qed.

(** X12: every whole quality value from 0 to 1000, written as an integer
    or as a float, is extracted as its decimal digits followed by six
    zeros. *)
Theorem slider_whole_values (members : list (string * json)) (key : string)
    (z : Z) (slider : json) :
  0 <= z <= 1000 ->
  slider = JInt z \/ slider = JUInt z \/ slider = JFloat (double_of_Z z) ->
  Json.find members key = Some slider ->
  double_field (JObject members) key = Ok (Str.to_string_int z ++ ".000000").
Proof.
  intros R S F.
  assert (D : to_string_double (double_of_Z z) = Str.to_string_int z ++ ".000000").
  { assert (All : forallb
                    (fun n => String.eqb
                                (to_string_double (double_of_Z (Z.of_nat n)))
                                (Str.to_string_int (Z.of_nat n) ++ ".000000"))
                    (seq 0 1001) = true) by (vm_compute; reflexivity).
    rewrite forallb_forall in All.
    specialize (All (Z.to_nat z)).
    rewrite Z2Nat.id in All by lia.
    apply String.eqb_eq, All, in_seq. lia. }
  unfold double_field, Json.contains, Json.subscript_key. rewrite F.
  cbn [bind].
  destruct S as [-> | [-> | ->]]; cbn [Json.get_double bind]; now rewrite D.
Qed.

End ExtractMore.

Lemma extract_defaults_witness :
  extract_preset_settings
    (JObject [("PresetList", JArray [JObject [("Comment", JString "empty")]])])
  = Ok default_settings.
Proof.
  apply (extract_defaults
           [("PresetList", JArray [JObject [("Comment", JString "empty")]])]
           [("Comment", JString "empty")] []).
  - reflexivity.
  - intros key I. unfold preset_keys in I. simpl in I.
    repeat (destruct I as [<- | I]; [reflexivity|]). contradiction.
Defined.

Lemma extracted_multipass_witness :
  is_multipass (convert_to_ffmpeg_params
                  (mkSettings "" "x264" "1500" "slow" "" "" "0" "1" true
                     "1280" "720" "" "0" "" "av_mp4"))
  = true.
Proof.
  exact (extracted_multipass Sim.two_pass_preset _ eq_refl).
Defined.

Lemma slider_whole_values_witness :
  double_field (JObject [("VideoQualitySlider", JUInt 22)]) "VideoQualitySlider"
  = Ok "22.000000".
Proof.
  apply (slider_whole_values [("VideoQualitySlider", JUInt 22)]
           "VideoQualitySlider" 22 (JUInt 22));
    [lia | right; left; reflexivity | reflexivity].
Defined.

Lemma extract_reads_first_entries_witness :
  extract_preset_settings
    (JObject
       [("PresetList",
         JArray
           [JObject
              [("AudioList",
                JArray [JObject [("AudioEncoder", JString "copy:aac")];
                        JObject [("AudioEncoder", JString "av_aac")]])];
            JObject [("VideoEncoder", JString "x264")]])])
  = extract_preset_settings
      (JObject
         [("PresetList",
           JArray
             [JObject
                [("AudioList",
                  JArray [JObject [("AudioEncoder", JString "copy:aac")]])]])]).
Proof.
  apply (extract_reads_first_entries
           [("PresetList",
             JArray
               [JObject
                  [("AudioList",
                    JArray [JObject [("AudioEncoder", JString "copy:aac")]])]])]
           [("PresetList",
             JArray
               [JObject
                  [("AudioList",
                    JArray [JObject [("AudioEncoder", JString "copy:aac")];
                            JObject [("AudioEncoder", JString "av_aac")]])];
                JObject [("VideoEncoder", JString "x264")]])]
           [("AudioList",
             JArray [JObject [("AudioEncoder", JString "copy:aac")]])]
           [("AudioList",
             JArray [JObject [("AudioEncoder", JString "copy:aac")];
                     JObject [("AudioEncoder", JString "av_aac")]])]
           (JObject [("AudioEncoder", JString "copy:aac")])
           [] [JObject [("AudioEncoder", JString "av_aac")]]
           [] [JObject [("VideoEncoder", JString "x264")]]);
    try reflexivity.
  intros key N. cbn [Json.find].
  destruct (String.eqb "AudioList" key) eqn:E; [|reflexivity].
  apply String.eqb_eq in E. now subst.
Defined.

(** ** From the preset to the arguments *)

Section ArgumentFacts.

Lemma digits_without (c : ascii) (d : Decimal.uint) :
  has_char c "0123456789" = false ->
  has_char c (NilEmpty.string_of_uint d) = false.
Proof.
  intros H. cbn [has_char] in H.
  repeat (apply orb_false_iff in H as [? H]).
  induction d; cbn [NilEmpty.string_of_uint has_char]; try reflexivity;
    rewrite IHd, orb_false_r; assumption.
Qed.

Lemma to_string_int_without (c : ascii) (z : Z) :
  has_char c "-0123456789" = false ->
  has_char c (Str.to_string_int z) = false.
Proof.
  intros H. cbn [has_char] in H. apply orb_false_iff in H as [M H].
  assert (D : forall d, has_char c (NilZero.string_of_uint d) = false).
  { intros d. unfold NilZero.string_of_uint.
    pose proof (digits_without c d H) as N.
    destruct d; try exact N.
    cbn [has_char] in *. now apply orb_false_iff in H as [-> _]. }
  unfold Str.to_string_int, NilZero.string_of_int.
  destruct (Z.to_int z); [apply D|].
  cbn [has_char]. now rewrite M, D.
Qed.

Lemma to_string_int_not_empty (z : Z) : Str.to_string_int z <> "".
Proof.
  unfold Str.to_string_int, NilZero.string_of_int, NilZero.string_of_uint.
  destruct (Z.to_int z) as [d | d]; destruct d; discriminate.
Qed.

Lemma digit_is_no_space (n : Z) : Ascii.eqb (Str.digit (n mod 10)) space = false.
Proof.
  assert (B : 0 <= n mod 10 < 10) by (apply Z.mod_pos_bound; lia).
  unfold Str.digit.
  assert (C : exists k, (k < 10)%nat /\ Z.to_nat (n mod 10) = k)
    by (exists (Z.to_nat (n mod 10)); split; [lia | reflexivity]).
  destruct C as (k & L & ->).
  do 10 (destruct k as [|k]; [reflexivity|]). lia.
Qed.

Lemma zero_padded_without_space (width : nat) (n : Z) :
  has_char space (Str.zero_padded width n) = false.
Proof.
  revert n; induction width as [|w IH]; intros n; [reflexivity|].
  cbn [Str.zero_padded]. rewrite has_char_append, IH.
  cbn [has_char]. now rewrite digit_is_no_space.
Qed.

Lemma to_string_double_without_space (d : double) :
  has_char space (to_string_double d) = false /\ to_string_double d <> "".
Proof.
  destruct d as [s | s | | s m e]; cbn [to_string_double].
  - destruct s; split; (reflexivity || discriminate).
  - destruct s; split; (reflexivity || discriminate).
  - split; (reflexivity || discriminate).
  - split.
    + rewrite !has_char_append, zero_padded_without_space.
      rewrite (to_string_int_without space) by reflexivity.
      destruct s; reflexivity.
    + destruct s; [discriminate|]. cbn [append].
      pose proof (to_string_int_not_empty (micros m e / 10 ^ 6)) as N.
      destruct (Str.to_string_int (micros m e / 10 ^ 6)); [contradiction|].
      discriminate.
Qed.

Lemma int_field_value (j : json) (key value : string) :
  int_field j key = Ok value ->
  has_char space value = false /\ value <> "".
Proof.
  unfold int_field. destruct (Json.contains j key).
  - destruct (Json.subscript_key j key) as [v| |]; simpl; try discriminate.
    destruct (Json.get_int v) as [n| |]; simpl; try discriminate.
    intros [= <-]. split.
    + now apply to_string_int_without.
    + apply to_string_int_not_empty.
  - intros [= <-]. split; [reflexivity | discriminate].
Qed.

Lemma double_field_value (j : json) (key value : string) :
  double_field j key = Ok value ->
  has_char space value = false /\ value <> "".
Proof.
  unfold double_field. destruct (Json.contains j key).
  - destruct (Json.subscript_key j key) as [v| |]; simpl; try discriminate.
    destruct (Json.get_double v) as [d| |]; simpl; try discriminate.
    intros [= <-]. apply to_string_double_without_space.
  - intros [= <-]. split; [reflexivity | discriminate].
Qed.

(** A flag, a space and a value without spaces split into the two. *)
Lemma split_flag_value (flag value : string) :
  flag <> "" -> has_char space flag = false ->
  value <> "" -> has_char space value = false ->
  split_string (flag ++ String space value) space = [flag; value].
Proof.
  intros F1 F2 V1 V2.
  change (flag ++ String space value)
    with (join_string [flag; value] (String space "")).
  apply split_join. repeat constructor; assumption.
Qed.

Ltac invert_binds H :=
  repeat (apply bind_Ok in H;
          let a := fresh "v" in
          let E := fresh "E" in
          destruct H as (a & E & H)).

(** X14: for settings that come out of the extractor the quality fragment
    always splits into exactly two arguments, "-crf" and the quality value
    or "-b:v" and the bitrate followed by "k", and the audio fragment into
    "-c:a" "copy" or "-c:a" "aac" "-b:a" and the audio bitrate followed by
    "k". *)
Theorem extracted_fragments_split (preset_data : json) (settings : Settings) :
  extract_preset_settings preset_data = Ok settings ->
  let params := convert_to_ffmpeg_params settings in
  split_string (quality params) space
  = (if String.eqb (video_quality_type settings) "2"
     then ["-crf"; video_quality settings]
     else ["-b:v"; video_bitrate settings ++ "k"])
  /\ split_string (acodec params) space
     = (if Str.rfind0_is_0 (audio_encoder settings) "copy:"
        then ["-c:a"; "copy"]
        else ["-c:a"; "aac"; "-b:a"; audio_bitrate settings ++ "k"]).
Proof.
  intros H. unfold extract_preset_settings in H. invert_binds H.
  injection H as <-. cbv zeta.
  repeat match goal with
         | E : int_field _ _ = Ok _ |- _ => apply int_field_value in E
         | E : double_field _ _ = Ok _ |- _ => apply double_field_value in E
         end.
  cbn [convert_to_ffmpeg_params quality acodec video_quality_type
         video_quality video_bitrate audio_encoder audio_bitrate].
  split.
  - destruct (String.eqb _ "2").
    + match goal with
      | H : has_char space ?q = false /\ ?q <> "" |- context [?q] =>
          destruct H as [S N];
          change ("-crf " ++ q) with ("-crf" ++ String space q);
          apply split_flag_value; (discriminate || reflexivity || assumption)
      end.
    + match goal with
      | |- context [?b ++ "k"] =>
          change ("-b:v " ++ b ++ "k") with ("-b:v" ++ String space (b ++ "k"));
          apply split_flag_value; try (discriminate || reflexivity)
      end.
      * match goal with
        | H : _ /\ ?b <> "" |- ?b ++ "k" <> "" =>
            destruct b; [now destruct H | discriminate]
        end.
      * rewrite has_char_append.
        match goal with
        | H : has_char space ?b = false /\ _ |- context [has_char space ?b] =>
            destruct H as [-> _]
        end. reflexivity.
  - destruct (Str.rfind0_is_0 _ "copy:"); [reflexivity|].
    match goal with
    | |- context [?b ++ "k"] =>
        change ("-c:a aac -b:a " ++ b ++ "k")
          with (join_string ["-c:a"; "aac"; "-b:a"; b ++ "k"] (String space ""));
        apply split_join; repeat constructor;
          try (discriminate || reflexivity)
    end.
    + match goal with
      | H : _ /\ ?b <> "" |- ?b ++ "k" <> "" =>
          destruct b; [now destruct H | discriminate]
      end.
    + rewrite has_char_append.
      match goal with
      | H : has_char space ?b = false /\ _ |- context [has_char space ?b] =>
          destruct H as [-> _]
      end. reflexivity.
Qed.

End ArgumentFacts.

Lemma extracted_fragments_split_witness :
  split_string "-b:v 1500k" space = ["-b:v"; "1500k"]
  /\ split_string "-c:a aac -b:a 0k" space = ["-c:a"; "aac"; "-b:a"; "0k"].
Proof.
  exact (extracted_fragments_split Sim.two_pass_preset _ eq_refl).
Defined.

(** ** The output directory *)

Section OutputDirFacts.

Context {env : Env}.

(** X13: [dedupe_converted] leaves an output directory without the doubled
    segment as it is; otherwise it replaces the first occurrence of the
    doubled segment, the one with the shortest text in front of it, by a
    single "converted" and keeps everything before and after it. *)
Theorem dedupe_converted_spec (output_dir : string) :
  let double_converted := path_join "converted" "converted" in
  (~ occurs double_converted output_dir
   /\ dedupe_converted output_dir = output_dir)
  \/ (exists pre post,
        output_dir = pre ++ double_converted ++ post
        /\ dedupe_converted output_dir = pre ++ "converted" ++ post
        /\ forall pre' post',
             output_dir = pre' ++ double_converted ++ post' ->
             (String.length pre <= String.length pre')%nat).
Proof.
  cbv zeta. unfold dedupe_converted.
  destruct (Str.find output_dir (path_join "converted" "converted"))
    as [n|] eqn:F.
  - right. destruct (find_some_occurs _ _ _ F) as (pre & post & E & L).
    exists pre, post. split; [exact E|]. subst output_dir. split.
    + rewrite <- L. unfold Str.replace.
      rewrite substring_prefix_app. f_equal. f_equal.
      rewrite <- append_assoc, <- length_append. apply substr_from_app.
    + intros pre' post' E'.
      destruct (occurs_find pre' (path_join "converted" "converted") post')
        as (m & F' & L').
      rewrite <- E', F in F'. injection F' as <-. lia.
  - left. split; [|reflexivity].
    intros O. apply contains_iff_occurs in O.
    unfold Str.contains in O. rewrite F in O. discriminate.
Qed.

End OutputDirFacts.

(** ** Runs of the further properties *)

Section MoreRuns.

Import Sim Scenario.

#[local] Existing Instance sim_env.


Lemma process_all_accounts_for_every_file_witness :
  total (fst (process_all ["media/clip.mp4"; "media/b.mkv"] execute_options
                crf_params "mkv" "mkv" 100000000 100000000 no_counts
                (start read_only_output_world)))
  = total no_counts + 2.
Proof.
  apply (process_all_accounts_for_every_file
           ["media/clip.mp4"; "media/b.mkv"] execute_options crf_params
           "mkv" "mkv" 100000000 100000000).
  intros file w [<- | [<- | []]]; reflexivity.
Defined.

Lemma process_all_ignored_files_witness :
  exists new,
    process_all ["media/clip.mp4"] execute_options crf_params "mkv" "mkv"
      100000000 100000000 no_counts
      (start (mkWorld ["media"]
                [("media/clip.mp4", 420); ("media/.noconvert", 420)] [] []))
    = (skipped no_counts 1,
       mkState (mkWorld ["media"]
                  [("media/clip.mp4", 420); ("media/.noconvert", 420)] [] [])
         new)
    /\ forallb is_print new = true.
Proof.
  apply (process_all_ignored_files ["media/clip.mp4"] execute_options
           crf_params "mkv" "mkv" 100000000 100000000 no_counts
           (start (mkWorld ["media"]
                     [("media/clip.mp4", 420); ("media/.noconvert", 420)]
                     [] []))).
  intros file [<- | []]. split; reflexivity.
Defined.



End MoreRuns.
